(** * Words-Training: the development server of [main.py]

    [main.py] is a thin layer over Python's [http.server]: it registers three
    MIME types, subclasses [SimpleHTTPRequestHandler] as [GameHandler]
    (overriding [__init__], [end_headers] and [do_GET]) and starts a threaded
    TCP server from [start_game_server].

    The embedding follows the program text.  The request handler is a record
    of the attributes the methods read and write, and each method is a
    function on that record.  Methods that the base classes invoke through
    [self] (virtual calls) take the method of the dynamic class as an
    argument, so that [GameHandler] can tie the knot with its overrides.
    What the operating system and the string utilities of the standard
    library compute is collected in the record [platform]; every theorem
    holds for each platform. *)

From stdpp Require Import base strings list gmap pretty.
From Stdlib Require Import Ascii String ZArith.

Local Open Scope Z_scope.

(** ** Strings, as Python's [str] methods used below *)

Definition CR : ascii := ascii_of_nat 13.
Definition LF : ascii := ascii_of_nat 10.
Definition CRLF : string := String CR (String LF "").

(** [str.lower], on the ASCII letters. *)
Definition lower_ascii (c : ascii) : ascii :=
  let n := nat_of_ascii c in
  if (65 <=? n)%nat && (n <=? 90)%nat then ascii_of_nat (n + 32) else c.

Fixpoint lower (s : string) : string :=
  match s with
  | EmptyString => EmptyString
  | String c s' => String (lower_ascii c) (lower s')
  end.

(** [s.startswith(p)] and [s.endswith("/")]. *)
Fixpoint startswith (s p : string) : bool :=
  match p, s with
  | EmptyString, _ => true
  | String c p', String a s' => Ascii.eqb a c && startswith s' p'
  | String _ _, EmptyString => false
  end.

Fixpoint endswith_slash (s : string) : bool :=
  match s with
  | EmptyString => false
  | String c EmptyString => Ascii.eqb c "/"
  | String _ s' => endswith_slash s'
  end.

(** [s.rfind(c)]: the index of the last occurrence of [c], or [-1]. *)
Fixpoint rfind_aux (c : ascii) (s : string) (i last : Z) : Z :=
  match s with
  | EmptyString => last
  | String a s' => rfind_aux c s' (i + 1) (if Ascii.eqb a c then i else last)
  end.

Definition rfind (c : ascii) (s : string) : Z := rfind_aux c s 0 (-1).

(** The slices [p[:i]] and [p[i:]] for [0 <= i]. *)
Definition slice_to (i : Z) (p : string) : string :=
  String.substring 0 (Z.to_nat i) p.

Definition slice_from (i : Z) (p : string) : string :=
  String.substring (Z.to_nat i) (String.length p - Z.to_nat i) p.

(** [genericpath._splitext(p, '/', None, '.')], which is
    [posixpath.splitext]: the loop looks for a character other than a dot
    between the last separator and the last dot. *)
Fixpoint splitext_loop (p : string) (filenameIndex dotIndex : Z) (fuel : nat)
  : option (string * string) :=
  match fuel with
  | O => None
  | S fuel' =>
      if filenameIndex <? dotIndex then
        if bool_decide (String.get (Z.to_nat filenameIndex) p = Some "."%char)
        then splitext_loop p (filenameIndex + 1) dotIndex fuel'
        else Some (slice_to dotIndex p, slice_from dotIndex p)
      else None
  end.

Definition splitext (p : string) : string * string :=
  let sepIndex := rfind "/" p in
  let dotIndex := rfind "." p in
  if sepIndex <? dotIndex then
    match splitext_loop p (sepIndex + 1) dotIndex
            (Z.to_nat (dotIndex - sepIndex)) with
    | Some r => r
    | None => (p, "")
    end
  else (p, "").

(** [posixpath.join(a, b)]. *)
Definition os_path_join (a b : string) : string :=
  if startswith b "/" then b
  else if bool_decide (a = "") || endswith_slash a then a +:+ b
  else a +:+ "/" +:+ b.

(** [urllib.parse._splittype]: a non-empty run of characters other than
    a slash and a colon at the start of [url], followed by a colon, is the
    scheme (lower-cased); what follows the colon is the data. *)
Fixpoint scheme_span (url : string) : string * string :=
  match url with
  | EmptyString => ("", "")
  | String c rest =>
      if Ascii.eqb c "/" || Ascii.eqb c ":" then ("", url)
      else let '(pre, post) := scheme_span rest in (String c pre, post)
  end.

Definition splittype (url : string) : option string * string :=
  match scheme_span url with
  | (String c pre, String ":" data) => (Some (lower (String c pre)), data)
  | _ => (None, url)
  end.

(** [s.find(c)]: the index of the first occurrence of [c], or [-1]. *)
Fixpoint find_aux (c : ascii) (s : string) (i : Z) : Z :=
  match s with
  | EmptyString => -1
  | String a s' => if Ascii.eqb a c then i else find_aux c s' (i + 1)
  end.

Definition find (c : ascii) (s : string) : Z := find_aux c s 0.

(** ** [mimetypes]: the table-driven guess of a content type *)

Module mimetypes.

(** An instance of [mimetypes.MimeTypes]; [types_map] and [types_map_inv]
    are the strict tables ([types_map[True]]), [common_types] the
    non-strict one. *)
Record MimeTypes := {
  encodings_map : gmap string string;
  suffix_map : gmap string string;
  types_map : gmap string string;
  types_map_inv : gmap string (list string);
  common_types : gmap string string
}.

Definition _suffix_map_default : gmap string string :=
  <[".svgz" := ".svg.gz"]> (<[".tgz" := ".tar.gz"]> (<[".taz" := ".tar.gz"]>
  (<[".tz" := ".tar.gz"]> (<[".tbz2" := ".tar.bz2"]>
  (<[".txz" := ".tar.xz"]> ∅))))).

Definition _encodings_map_default : gmap string string :=
  <[".gz" := "gzip"]> (<[".Z" := "compress"]> (<[".bz2" := "bzip2"]>
  (<[".xz" := "xz"]> (<[".br" := "br"]> ∅)))).

(** [mimetypes.init()]: a fresh database.  Its strict and non-strict type
    tables are the built-in ones overlaid with whatever the host's
    [mime.types] files and registry list, so they are taken as given;
    reading those files only ever adds types, and the suffix and encoding
    tables stay the built-in ones. *)
Definition init (platform_types : gmap string string)
    (platform_types_inv : gmap string (list string))
    (platform_common : gmap string string) : MimeTypes :=
  {| encodings_map := _encodings_map_default;
     suffix_map := _suffix_map_default;
     types_map := platform_types;
     types_map_inv := platform_types_inv;
     common_types := platform_common |}.

(** [MimeTypes.add_type(type, ext)] with the default [strict=True]. *)
Definition add_type (type ext : string) (db : MimeTypes) : MimeTypes :=
  let exts := default [] (types_map_inv db !! type) in
  {| encodings_map := encodings_map db;
     suffix_map := suffix_map db;
     types_map := <[ext := type]> (types_map db);
     types_map_inv :=
       <[type := if bool_decide (ext ∈ exts) then exts else exts ++ [ext]]>
         (types_map_inv db);
     common_types := common_types db |}.

(** The loop [while ext.lower() in suffix_map] of [guess_type]. *)
Fixpoint suffix_loop (db : MimeTypes) (base ext : string) (fuel : nat)
  : option (string * string) :=
  match fuel with
  | O => None
  | S fuel' =>
      match suffix_map db !! lower ext with
      | Some suffix =>
          let '(base', ext') := splitext (base +:+ suffix) in
          suffix_loop db base' ext' fuel'
      | None => Some (base, ext)
      end
  end.

(** The branch of [guess_type] for [data:] URLs. *)
Definition guess_data_url (url : string) : option string :=
  let comma := find "," url in
  if comma <? 0 then None
  else
    let semi := find ";" (slice_to comma url) in
    let type := if 0 <=? semi then slice_to semi url else slice_to comma url in
    if (0 <=? find "=" type) || (find "/" type <? 0) then Some "text/plain"
    else Some type.

(** [MimeTypes.guess_type(url)] with the default [strict=True]; the first
    component of the result (the type).  [None] at the outer level means
    that the suffix loop did not finish within [fuel] rounds. *)
Definition guess_type_fuel (db : MimeTypes) (url : string) (fuel : nat)
  : option (option string) :=
  let '(scheme, url) := splittype url in
  if bool_decide (scheme = Some "data") then Some (guess_data_url url)
  else
    let '(base, ext) := splitext url in
    match suffix_loop db base ext fuel with
    | None => None
    | Some (base, ext) =>
        let ext :=
          if bool_decide (is_Some (encodings_map db !! ext))
          then (splitext base).2 else ext in
        Some (types_map db !! lower ext)
    end.

(** Every value of the built-in suffix table ends in an encoding suffix
    that is not itself a key, so the loop is left after at most one
    substitution (lemma [suffix_loop_default_total] below); two rounds of
    fuel are enough for every database this program can build. *)
Definition guess_type (db : MimeTypes) (url : string) : option string :=
  match guess_type_fuel db url 2 with
  | Some r => r
  | None => None
  end.

End mimetypes.

(** ** The host: file system and the library's string formatting *)

(** An open file: what [f.read()] gives and the two [os.fstat] fields
    [send_head] reads. *)
Record file := File { content : string; st_size : Z; st_mtime : Z }.

Record platform := Platform {
  (** [SimpleHTTPRequestHandler.translate_path], from [self.directory]
      and the request target to a local file name *)
  translate_path : string → string → string;
  (** [urllib.parse.urlsplit(path).path] *)
  urlsplit_path : string → string;
  (** the request target with a slash added to its path, as
      [urlunsplit] rebuilds it for the redirect *)
  redirect_url : string → string;
  os_path_isdir : string → bool;
  os_path_isfile : string → bool;
  (** [open(path, 'rb')]; [None] stands for [OSError] *)
  os_open : string → option file;
  (** [os.listdir(path)]; [None] stands for [OSError] *)
  os_listdir : string → option (list string);
  (** the encoded HTML page [list_directory] builds for a request target,
      a directory and its entries *)
  listing_page : string → string → list string → string;
  getfilesystemencoding : string;
  version_string : string;
  (** [date_time_string(timestamp)], [None] for the current time *)
  date_time_string : option Z → string;
  (** [BaseHTTPRequestHandler.responses]: short and long message of a
      status code *)
  responses : Z → option (string * string);
  (** [error_message_format] filled in with code, message and explanation
      and encoded *)
  error_page : Z → string → string → string;
  (** [repr] of a string, for the [%r] of the 501 message *)
  repr : string → string
}.

(** ** The request handler object *)

(** What is written to [self.wfile]: a flushed header buffer (the joined
    lines are kept apart) or a body. *)
Inductive output :=
  | Headers (lines : list string)
  | Body (data : string).

(** The attributes of a handler that the methods below read or write.
    [if_modified_since] is the parsed [If-Modified-Since] request header as
    a timestamp, present only when it is well-formed, in UTC, and no
    [If-None-Match] header comes with it. *)
Record handler := Handler {
  directory : string;
  command : string;
  path : string;
  request_version : string;
  if_modified_since : option Z;
  close_connection : bool;
  _headers_buffer : list string;
  wfile : list output
}.

Definition set_path (p : string) (h : handler) : handler :=
  {| directory := directory h; command := command h; path := p;
     request_version := request_version h;
     if_modified_since := if_modified_since h;
     close_connection := close_connection h;
     _headers_buffer := _headers_buffer h; wfile := wfile h |}.

Definition set_close_connection (b : bool) (h : handler) : handler :=
  {| directory := directory h; command := command h; path := path h;
     request_version := request_version h;
     if_modified_since := if_modified_since h;
     close_connection := b;
     _headers_buffer := _headers_buffer h; wfile := wfile h |}.

Definition set_headers_buffer (b : list string) (h : handler) : handler :=
  {| directory := directory h; command := command h; path := path h;
     request_version := request_version h;
     if_modified_since := if_modified_since h;
     close_connection := close_connection h;
     _headers_buffer := b; wfile := wfile h |}.

(** [self.wfile.write(data)] *)
Definition wfile_write (o : output) (h : handler) : handler :=
  {| directory := directory h; command := command h; path := path h;
     request_version := request_version h;
     if_modified_since := if_modified_since h;
     close_connection := close_connection h;
     _headers_buffer := _headers_buffer h; wfile := wfile h ++ [o] |}.

(** ** [http.server.BaseHTTPRequestHandler] *)

Module BaseHTTPRequestHandler.
Section Methods.
Context (P : platform).

Definition protocol_version : string := "HTTP/1.0".
Definition error_content_type : string := "text/html;charset=utf-8".

Definition send_response_only (code : Z) (message : option string)
    (self : handler) : handler :=
  if bool_decide (request_version self ≠ "HTTP/0.9") then
    let message :=
      match message with
      | Some m => m
      | None => match responses P code with Some r => r.1 | None => "" end
      end in
    set_headers_buffer
      (_headers_buffer self ++
         [protocol_version +:+ " " +:+ pretty code +:+ " " +:+ message
            +:+ CRLF])
      self
  else self.

Definition send_header (keyword value : string) (self : handler) : handler :=
  let self :=
    if bool_decide (request_version self ≠ "HTTP/0.9") then
      set_headers_buffer
        (_headers_buffer self ++ [keyword +:+ ": " +:+ value +:+ CRLF]) self
    else self in
  if bool_decide (lower keyword = "connection") then
    if bool_decide (lower value = "close") then
      set_close_connection true self
    else if bool_decide (lower value = "keep-alive") then
      set_close_connection false self
    else self
  else self.

Definition flush_headers (self : handler) : handler :=
  set_headers_buffer [] (wfile_write (Headers (_headers_buffer self)) self).

Definition end_headers (self : handler) : handler :=
  if bool_decide (request_version self ≠ "HTTP/0.9") then
    flush_headers
      (set_headers_buffer (_headers_buffer self ++ [CRLF]) self)
  else self.

(** [send_response]; the request log line it writes to [stderr] is not
    part of the handler's state. *)
Definition send_response (code : Z) (message : option string)
    (self : handler) : handler :=
  let self := send_response_only code message self in
  let self := send_header "Server" (version_string P) self in
  send_header "Date" (date_time_string P None) self.

(** [send_error]; [self_end_headers] is the [end_headers] of the object's
    class.  As for [send_response], the line logged on [stderr] is left
    out. *)
Definition send_error (self_end_headers : handler → handler)
    (code : Z) (message explain : option string) (self : handler)
  : handler :=
  let '(shortmsg, longmsg) :=
    match responses P code with Some r => r | None => ("???", "???") end in
  let message := default shortmsg message in
  let explain := default longmsg explain in
  let self := send_response code (Some message) self in
  let self := send_header "Connection" "close" self in
  let has_body :=
    (200 <=? code) && negb (bool_decide (code ∈ [204; 205; 304])) in
  let body := error_page P code message explain in
  let self :=
    if has_body then
      send_header "Content-Length" (pretty (Z.of_nat (String.length body)))
        (send_header "Content-Type" error_content_type self)
    else self in
  let self := self_end_headers self in
  if bool_decide (command self ≠ "HEAD") && has_body
     && negb (bool_decide (body = ""))
  then wfile_write (Body body) self
  else self.

End Methods.
End BaseHTTPRequestHandler.

(** ** [http.server.SimpleHTTPRequestHandler] *)

Module SimpleHTTPRequestHandler.
Section Methods.
Context (P : platform).
(** the global database [mimetypes._db] at the time of the request *)
Context (db : mimetypes.MimeTypes).
(** the [end_headers] of the object's class *)
Context (self_end_headers : handler → handler).

Definition extensions_map : gmap string string :=
  <[".gz" := "application/gzip"]> (<[".Z" := "application/octet-stream"]>
  (<[".bz2" := "application/x-bzip2"]> (<[".xz" := "application/x-xz"]> ∅))).

(** [__init__(self, *args, directory=None, **kwargs)]: the value of
    [self.directory]; [cwd] is [os.getcwd()]. *)
Definition __init__ (cwd : string) (directory : option string) : string :=
  match directory with
  | None => cwd
  | Some d => d
  end.

Definition guess_type (fspath : string) : string :=
  let ext := (splitext fspath).2 in
  match extensions_map !! ext with
  | Some t => t
  | None =>
      match extensions_map !! lower ext with
      | Some t => t
      | None =>
          match mimetypes.guess_type db fspath with
          | Some guess =>
              if bool_decide (guess = "") then "application/octet-stream"
              else guess
          | None => "application/octet-stream"
          end
      end
  end.

Definition list_directory (fspath : string) (self : handler)
  : handler * option file :=
  match os_listdir P fspath with
  | None =>
      (BaseHTTPRequestHandler.send_error P self_end_headers 404
         (Some "No permission to list directory") None self, None)
  | Some list =>
      let encoded := listing_page P (path self) fspath list in
      let self := BaseHTTPRequestHandler.send_response P 200 None self in
      let self :=
        BaseHTTPRequestHandler.send_header "Content-type"
          ("text/html; charset=" +:+ getfilesystemencoding P) self in
      let self :=
        BaseHTTPRequestHandler.send_header "Content-Length"
          (pretty (Z.of_nat (String.length encoded))) self in
      (self_end_headers self,
       Some {| content := encoded;
               st_size := Z.of_nat (String.length encoded);
               st_mtime := 0 |})
  end.

(** The part of [send_head] from [ctype = self.guess_type(path)] on. *)
Definition send_file_head (fspath : string) (self : handler)
  : handler * option file :=
  let ctype := guess_type fspath in
  if endswith_slash fspath then
    (BaseHTTPRequestHandler.send_error P self_end_headers 404
       (Some "File not found") None self, None)
  else
    match os_open P fspath with
    | None =>
        (BaseHTTPRequestHandler.send_error P self_end_headers 404
           (Some "File not found") None self, None)
    | Some f =>
        let not_modified :=
          match if_modified_since self with
          | Some ims => st_mtime f <=? ims
          | None => false
          end in
        if not_modified then
          (self_end_headers
             (BaseHTTPRequestHandler.send_response P 304 None self), None)
        else
          let self := BaseHTTPRequestHandler.send_response P 200 None self in
          let self :=
            BaseHTTPRequestHandler.send_header "Content-type" ctype self in
          let self :=
            BaseHTTPRequestHandler.send_header "Content-Length"
              (pretty (st_size f)) self in
          let self :=
            BaseHTTPRequestHandler.send_header "Last-Modified"
              (date_time_string P (Some (st_mtime f))) self in
          (self_end_headers self, Some f)
    end.

Definition send_head (self : handler) : handler * option file :=
  let fspath := translate_path P (directory self) (path self) in
  if os_path_isdir P fspath then
    if negb (endswith_slash (urlsplit_path P (path self))) then
      let self := BaseHTTPRequestHandler.send_response P 301 None self in
      let self :=
        BaseHTTPRequestHandler.send_header "Location"
          (redirect_url P (path self)) self in
      let self :=
        BaseHTTPRequestHandler.send_header "Content-Length" "0" self in
      (self_end_headers self, None)
    else if os_path_isfile P (os_path_join fspath "index.html") then
      send_file_head (os_path_join fspath "index.html") self
    else if os_path_isfile P (os_path_join fspath "index.htm") then
      send_file_head (os_path_join fspath "index.htm") self
    else list_directory fspath self
  else send_file_head fspath self.

(** [copyfile(f, self.wfile)] *)
Definition copyfile (source : file) (self : handler) : handler :=
  wfile_write (Body (content source)) self.

Definition do_GET (self : handler) : handler :=
  match send_head self with
  | (self, Some f) => copyfile f self
  | (self, None) => self
  end.

Definition do_HEAD (self : handler) : handler :=
  (send_head self).1.

End Methods.
End SimpleHTTPRequestHandler.

(** ** [main.py]: class [GameHandler] *)

(** A request line and headers as [parse_request] leaves them in the
    handler. *)
Record request := Request {
  req_command : string;
  req_path : string;
  req_version : string;
  req_if_modified_since : option Z
}.

Module GameHandler.
Section Methods.
Context (P : platform).
Context (db : mimetypes.MimeTypes).

(** [__init__]: the base class's, called with [directory=DIRECTORY]. *)
Definition __init__ (DIRECTORY cwd : string) : string :=
  SimpleHTTPRequestHandler.__init__ cwd (Some DIRECTORY).

Definition end_headers (self : handler) : handler :=
  let self :=
    BaseHTTPRequestHandler.send_header "Access-Control-Allow-Origin" "*"
      self in
  let self :=
    BaseHTTPRequestHandler.send_header "Cache-Control"
      "no-store, no-cache, must-revalidate, max-age=0" self in
  let self := BaseHTTPRequestHandler.send_header "Pragma" "no-cache" self in
  let self := BaseHTTPRequestHandler.send_header "Expires" "0" self in
  BaseHTTPRequestHandler.end_headers self.

Definition do_GET (self : handler) : handler :=
  let self :=
    if bool_decide (path self = "/") then set_path "/index.html" self
    else self in
  SimpleHTTPRequestHandler.do_GET P db end_headers self.

(** Inherited: the class does not define [do_HEAD] and [send_error]. *)
Definition do_HEAD (self : handler) : handler :=
  SimpleHTTPRequestHandler.do_HEAD P db end_headers self.

Definition send_error (code : Z) (message explain : option string)
    (self : handler) : handler :=
  BaseHTTPRequestHandler.send_error P end_headers code message explain self.

(** [getattr(self, mname)] for the names [handle_one_request] asks for. *)
Definition getattr (mname : string) : option (handler → handler) :=
  if bool_decide (mname = "do_GET") then Some do_GET
  else if bool_decide (mname = "do_HEAD") then Some do_HEAD
  else None.

(** [handle_one_request] once [parse_request] has succeeded. *)
Definition handle_one_request (self : handler) : handler :=
  match getattr ("do_" +:+ command self) with
  | None =>
      send_error 501
        (Some ("Unsupported method (" +:+ repr P (command self) +:+ ")"))
        None self
  | Some method => method self
  end.

(** A handler object made for one request by the server, and what it
    writes. *)
Definition new (DIRECTORY cwd : string) (r : request) : handler :=
  {| directory := __init__ DIRECTORY cwd;
     command := req_command r;
     path := req_path r;
     request_version := req_version r;
     if_modified_since := req_if_modified_since r;
     close_connection := true;
     _headers_buffer := [];
     wfile := [] |}.

Definition serve (DIRECTORY cwd : string) (r : request) : handler :=
  handle_one_request (new DIRECTORY cwd r).

End Methods.
End GameHandler.

(** ** The process: module top level and [start_game_server] *)

(** The exceptions the program distinguishes: [KeyboardInterrupt] and
    [SystemExit] derive from [BaseException] only; every other one is an
    instance of [Exception], carried with its [str(e)]. *)
Inductive exception :=
  | KeyboardInterrupt
  | SystemExit
  | Exception (str : string).

(** The module's global names and the process-wide state it touches. *)
Record memory := Memory {
  PORT : Z;
  DIRECTORY : string;
  _db : option mimetypes.MimeTypes;
  cwd : string
}.

(** The observable effects, in program order. *)
Inductive event :=
  | EAssign (name : string)
  | EMimetypesInit
  | EAddType (type ext : string)
  | EChdir (dir : string)
  | EPrint (line : string)
  | EWebbrowserOpen (url : string)
  | EBind (host : string) (port : Z)
  | EServeForever
  | EHandle (r : request) (self : handler)
  | EServerClose.

(** What the world outside the program decides in one run. *)
Record world := World {
  __file__ : string;
  __name__ : string;
  os_path_abspath : string → string;
  os_path_dirname : string → string;
  os_getcwd : string;
  platform_types : gmap string string;
  platform_types_inv : gmap string (list string);
  platform_common : gmap string string;
  (** the exception [webbrowser.open] raises, if any *)
  webbrowser_raises : option exception;
  (** the exception the server's constructor raises (bind or listen
      failing), if any *)
  bind_raises : option exception;
  (** the requests accepted, in order, before the serve loop is left *)
  accepted : list request;
  (** the exception that ends [serve_forever]; [None] when the loop runs
      for ever (nothing in the program calls [shutdown]) *)
  serve_raises : option exception
}.

(** The process state: the memory, and the events so far, each with the
    memory right after it. *)
Record process := Process {
  mem : memory;
  trace : list (event * memory)
}.

Inductive result (A : Type) :=
  | Return (a : A)
  | Raise (e : exception)
  | Diverge.
Arguments Return {A} a.
Arguments Raise {A} e.
Arguments Diverge {A}.

Definition M (A : Type) : Type := process → result A * process.

#[export] Instance M_ret : MRet M := λ A a s, (Return a, s).
#[export] Instance M_bind : MBind M := λ A B k c s,
  match c s with
  | (Return a, s') => k a s'
  | (Raise e, s') => (Raise e, s')
  | (Diverge, s') => (Diverge, s')
  end.

Definition raise {A} (e : exception) : M A := λ s, (Raise e, s).
Definition diverge {A} : M A := λ s, (Diverge, s).
Definition gets {A} (f : memory → A) : M A := λ s, (Return (f (mem s)), s).
Definition modify (f : memory → memory) : M unit :=
  λ s, (Return (), {| mem := f (mem s); trace := trace s |}).
Definition emit (ev : event) : M unit :=
  λ s, (Return (), {| mem := mem s; trace := trace s ++ [(ev, mem s)] |}).

(** [try: body / except: handler] with a bare [except], which catches
    every exception. *)
Definition try_except {A} (body : M A) (handler : exception → M A) : M A :=
  λ s, match body s with
       | (Raise e, s') => handler e s'
       | r => r
       end.

(** [try: body / finally: final] *)
Definition try_finally {A} (body : M A) (final : M unit) : M A :=
  λ s, match body s with
       | (Return a, s') =>
           match final s' with
           | (Return _, s'') => (Return a, s'')
           | (Raise e, s'') => (Raise e, s'')
           | (Diverge, s'') => (Diverge, s'')
           end
       | (Raise e, s') =>
           match final s' with
           | (Return _, s'') => (Raise e, s'')
           | (Raise e', s'') => (Raise e', s'')
           | (Diverge, s'') => (Diverge, s'')
           end
       | (Diverge, s') => (Diverge, s')
       end.

Fixpoint for_each {A} (l : list A) (body : A → M unit) : M unit :=
  match l with
  | [] => mret ()
  | a :: l' => body a ;; for_each l' body
  end.

(** ["=" * 60] *)
Fixpoint str_repeat (s : string) (n : nat) : string :=
  match n with
  | O => ""
  | S n' => s +:+ str_repeat s n'
  end.

Definition NL : string := String LF "".

(** ** The program text *)

Section Program.
Context (P : platform) (W : world).

(** *** Library calls with an effect *)

Definition mimetypes_init : M unit :=
  modify (λ m, {| PORT := PORT m; DIRECTORY := DIRECTORY m;
                  _db := Some (mimetypes.init (platform_types W)
                                 (platform_types_inv W) (platform_common W));
                  cwd := cwd m |}) ;;
  emit EMimetypesInit.

(** The database a call of the module-level functions of [mimetypes]
    works on: [if _db is None: init()]. *)
Definition the_db (m : memory) : mimetypes.MimeTypes :=
  match _db m with
  | Some db => db
  | None => mimetypes.init (platform_types W) (platform_types_inv W)
              (platform_common W)
  end.

Definition mimetypes_add_type (type ext : string) : M unit :=
  modify (λ m, {| PORT := PORT m; DIRECTORY := DIRECTORY m;
                  _db := Some (mimetypes.add_type type ext (the_db m));
                  cwd := cwd m |}) ;;
  emit (EAddType type ext).

Definition os_chdir (dir : string) : M unit :=
  modify (λ m, {| PORT := PORT m; DIRECTORY := DIRECTORY m; _db := _db m;
                  cwd := dir |}) ;;
  emit (EChdir dir).

Definition print (line : string) : M unit := emit (EPrint line).

Definition webbrowser_open (url : string) : M unit :=
  emit (EWebbrowserOpen url) ;;
  match webbrowser_raises W with
  | Some e => raise e
  | None => mret ()
  end.

(** [ThreadedHTTPServer((host, port), GameHandler)]: the constructor
    binds and listens. *)
Definition ThreadedHTTPServer (host : string) (port : Z) : M unit :=
  emit (EBind host port) ;;
  match bind_raises W with
  | Some e => raise e
  | None => mret ()
  end.

(** [httpd.serve_forever()]: every accepted request gets a handler of
    its own, made by [GameHandler] from the globals of that moment
    (the threads of [ThreadingMixIn] share nothing the handlers write,
    so they are run one after the other here). *)
Definition serve_forever : M unit :=
  emit EServeForever ;;
  for_each (accepted W) (λ r,
    m ← gets id;
    emit (EHandle r
            (GameHandler.serve P (the_db m) (DIRECTORY m) (cwd m) r))) ;;
  match serve_raises W with
  | Some e => raise e
  | None => diverge
  end.

(** [with ThreadedHTTPServer(...) as httpd: body]: leaving the block
    closes the server. *)
Definition with_ThreadedHTTPServer (host : string) (port : Z)
    (body : M unit) : M unit :=
  ThreadedHTTPServer host port ;;
  try_finally body (emit EServerClose).

(** *** [start_game_server] *)

Definition start_game_server : M unit :=
  dir ← gets DIRECTORY;
  os_chdir dir ;;
  print (NL +:+ str_repeat "=" 60) ;;
  print "🎨 儿童英语单词学习游戏 (Word Match Adventure)" ;;
  dir ← gets DIRECTORY;
  print ("🏠 运行目录: " +:+ dir) ;;
  port ← gets PORT;
  print ("🌐 访问地址: http://localhost:" +:+ pretty port) ;;
  print (str_repeat "=" 60 +:+ NL) ;;
  try_except
    (port ← gets PORT;
     webbrowser_open ("http://localhost:" +:+ pretty port))
    (λ _, mret ()) ;;
  try_except
    (port ← gets PORT;
     with_ThreadedHTTPServer "" port
       (print "🚀 服务器已启动！正在监听请求..." ;;
        print "💡 如果页面显示空白，请在浏览器中按 F12 查看控制台报错。" ;;
        print ("🛑 按 Ctrl+C 可以停止服务器。" +:+ NL) ;;
        serve_forever))
    (λ e,
       match e with
       | KeyboardInterrupt => print (NL +:+ "👋 服务器已安全关闭。")
       | Exception str =>
           print ("❌ 启动失败，原因: " +:+ str) ;;
           print "💡 可能是端口被占用，请尝试关闭其他 Python 运行窗口。"
       | _ => raise e
       end).

(** *** The module, run from top to bottom *)

Definition main : M unit :=
  modify (λ m, {| PORT := 8000; DIRECTORY := DIRECTORY m; _db := _db m;
                  cwd := cwd m |}) ;;
  emit (EAssign "PORT") ;;
  modify (λ m, {| PORT := PORT m;
                  DIRECTORY :=
                    os_path_dirname W (os_path_abspath W (__file__ W));
                  _db := _db m; cwd := cwd m |}) ;;
  emit (EAssign "DIRECTORY") ;;
  mimetypes_init ;;
  mimetypes_add_type "application/javascript" ".ts" ;;
  mimetypes_add_type "application/javascript" ".tsx" ;;
  mimetypes_add_type "application/json" ".json" ;;
  if bool_decide (__name__ W = "__main__") then start_game_server
  else mret ().

(** The state the interpreter starts the module in: the two globals are
    not bound yet (their fields hold placeholders) and [mimetypes] has no
    database. *)
Definition boot : process :=
  {| mem := {| PORT := 0; DIRECTORY := ""; _db := None;
               cwd := os_getcwd W |};
     trace := [] |}.

Definition run : result unit * process := main boot.

End Program.

(** ** A concrete host, for running the model *)

Module Example.

Definition index_html : file :=
  {| content := "<html>game</html>"; st_size := 17; st_mtime := 1700000000 |}.
Definition app_tsx : file :=
  {| content := "export const App = 1;"; st_size := 21;
     st_mtime := 1700000100 |}.
Definition old_htm : file :=
  {| content := "<html>old</html>"; st_size := 16; st_mtime := 1600000000 |}.

(** Everything of the request target before the first [?]. *)
Fixpoint strip_query (s : string) : string :=
  match s with
  | EmptyString => EmptyString
  | String c s' => if Ascii.eqb c "?" then "" else String c (strip_query s')
  end.

(** A host whose served directory holds the files listed by [files] and
    the sub-directory [assets]. *)
Definition host (files : gmap string file) : platform :=
  {| translate_path := λ dir p, dir +:+ strip_query p;
     urlsplit_path := strip_query;
     redirect_url := λ p, strip_query p +:+ "/";
     os_path_isdir := λ p,
       bool_decide (p ∈ ["/srv/game"; "/srv/game/"; "/srv/game/assets";
                         "/srv/game/assets/"]);
     os_path_isfile := λ p, bool_decide (is_Some (files !! p));
     os_open := λ p, files !! p;
     os_listdir := λ p, Some ["assets"];
     listing_page := λ target dir entries, "<ul><li>assets/</li></ul>";
     getfilesystemencoding := "utf-8";
     version_string := "SimpleHTTP/0.6 Python/3.11.2";
     date_time_string := λ t, "Thu, 01 Jan 2026 00:00:00 GMT";
     responses := λ code,
       if code =? 404 then Some ("Not Found", "Nothing matches the given URI")
       else if code =? 200 then
         Some ("OK", "Request fulfilled, document follows")
       else if code =? 301 then
         Some ("Moved Permanently", "Object moved permanently")
       else if code =? 501 then
         Some ("Not Implemented", "Server does not support this operation")
       else None;
     error_page := λ code message explain,
       "<h1>Error response</h1><p>Error code: " +:+ pretty code +:+ "</p>";
     repr := λ s, "'" +:+ s +:+ "'" |}.

Definition files : gmap string file :=
  <["/srv/game/index.html" := index_html]>
    (<["/srv/game/App.tsx" := app_tsx]> ∅).

(** The same directory with [index.htm] in place of [index.html]. *)
Definition files_htm : gmap string file :=
  <["/srv/game/index.htm" := old_htm]> ∅.

Definition db : mimetypes.MimeTypes :=
  mimetypes.add_type "application/json" ".json"
    (mimetypes.add_type "application/javascript" ".tsx"
       (mimetypes.add_type "application/javascript" ".ts"
          (mimetypes.init
             (<[".ts" := "video/mp2t"]> (<[".html" := "text/html"]> ∅))
             ∅ ∅))).

Definition get (target : string) : request :=
  {| req_command := "GET"; req_path := target; req_version := "HTTP/1.1";
     req_if_modified_since := None |}.

Definition head (target : string) : request :=
  {| req_command := "HEAD"; req_path := target; req_version := "HTTP/1.1";
     req_if_modified_since := None |}.

(** A run as a script from [/srv/game/main.py]. *)
Definition script (browser bind : option exception)
    (requests : list request) (interrupt : option exception) : world :=
  {| __file__ := "main.py";
     __name__ := "__main__";
     os_path_abspath := λ f, "/srv/game/" +:+ f;
     os_path_dirname := λ f, "/srv/game";
     os_getcwd := "/home/dev";
     platform_types :=
       <[".ts" := "video/mp2t"]> (<[".html" := "text/html"]> ∅);
     platform_types_inv := ∅;
     platform_common := ∅;
     webbrowser_raises := browser;
     bind_raises := bind;
     accepted := requests;
     serve_raises := interrupt |}.

End Example.

(** ** Vocabulary of the statements *)

(** The four header lines [GameHandler.end_headers] adds. *)
Definition fixed_headers : list string :=
  [ "Access-Control-Allow-Origin: *" +:+ CRLF;
    "Cache-Control: no-store, no-cache, must-revalidate, max-age=0" +:+ CRLF;
    "Pragma: no-cache" +:+ CRLF;
    "Expires: 0" +:+ CRLF ].

(** Every header block among the outputs [out] has the four lines. *)
Definition all_blocks_fixed (out : list output) : Prop :=
  ∀ lines, Headers lines ∈ out → ∀ l, l ∈ fixed_headers → l ∈ lines.

(** The outputs contain a header block. *)
Definition has_block (out : list output) : Prop :=
  ∃ lines, Headers lines ∈ out.

(** [self'] is [self] after writing [out], with the request line and the
    served directory kept. *)
Definition writes (self self' : handler) (out : list output) : Prop :=
  wfile self' = wfile self ++ out
  ∧ request_version self' = request_version self
  ∧ command self' = command self
  ∧ directory self' = directory self.

Definition response_ok (version : string) (out : list output) : Prop :=
  all_blocks_fixed out ∧ (version = "HTTP/0.9" ∨ has_block out)
  ∧ (version = "HTTP/0.9" → ¬ has_block out).

(** A method that writes nothing, and one that writes a response. *)
Definition quiet (f : handler → handler) : Prop :=
  ∀ self, writes self (f self) [].

Definition responds (f : handler → handler) : Prop :=
  ∀ self, ∃ out,
    writes self (f self) out ∧ response_ok (request_version self) out.

(** What [self'] has written since [self], as a response: when the
    version of the request is not HTTP/0.9, at least one header block, and
    the four lines in every header block; when it is HTTP/0.9, no header
    block at all. *)
Definition answers_with_fixed_headers (self self' : handler) : Prop :=
  ∃ out : list output,
    wfile self' = wfile self ++ out
    ∧ (request_version self ≠ "HTTP/0.9" →
       (∃ lines, Headers lines ∈ out)
       ∧ ∀ lines, Headers lines ∈ out → ∀ l, l ∈ fixed_headers → l ∈ lines)
    ∧ (request_version self = "HTTP/0.9" → ∀ lines, Headers lines ∉ out).


(** The header blocks among some outputs, in order. *)
Fixpoint header_blocks (out : list output) : list (list string) :=
  match out with
  | [] => []
  | Headers lines :: out' => lines :: header_blocks out'
  | Body _ :: out' => header_blocks out'
  end.


(** The target [GameHandler.do_GET] serves for a request target. *)
Definition served_target (target : string) : string :=
  if bool_decide (target = "/") then "/index.html" else target.


(** The four calls of [send_header] in [GameHandler.end_headers]. *)
Definition with_fixed_headers (self : handler) : handler :=
  BaseHTTPRequestHandler.send_header "Expires" "0"
    (BaseHTTPRequestHandler.send_header "Pragma" "no-cache"
       (BaseHTTPRequestHandler.send_header "Cache-Control"
          "no-store, no-cache, must-revalidate, max-age=0"
          (BaseHTTPRequestHandler.send_header
             "Access-Control-Allow-Origin" "*" self))).


(** The database of [mimetypes] once the module's three registrations have
    run on a fresh one. *)
Definition registered_db (W : world) : mimetypes.MimeTypes :=
  mimetypes.add_type "application/json" ".json"
    (mimetypes.add_type "application/javascript" ".tsx"
       (mimetypes.add_type "application/javascript" ".ts"
          (mimetypes.init (platform_types W) (platform_types_inv W)
             (platform_common W)))).

(** The request is not answered with 304: it carries no usable
    [If-Modified-Since], or the file changed after that time. *)
Definition modified_since (self : handler) (f : file) : Prop :=
  match if_modified_since self with
  | Some ims => ims < st_mtime f
  | None => True
  end.

(** *** The run of the script *)

(** The events of a process, without the memory snapshots. *)
Definition events (s : process) : list event := (trace s).*1.

(** [os.path.dirname(os.path.abspath(__file__))] *)
Definition root (W : world) : string :=
  os_path_dirname W (os_path_abspath W (__file__ W)).

(** The lines the program prints. *)
Definition rule : string := str_repeat "=" 60.
Definition banner (W : world) : list string :=
  [ NL +:+ rule;
    "🎨 儿童英语单词学习游戏 (Word Match Adventure)";
    "🏠 运行目录: " +:+ root W;
    "🌐 访问地址: http://localhost:" +:+ pretty 8000;
    rule +:+ NL ].
Definition started_lines : list string :=
  [ "🚀 服务器已启动！正在监听请求...";
    "💡 如果页面显示空白，请在浏览器中按 F12 查看控制台报错。";
    "🛑 按 Ctrl+C 可以停止服务器。" +:+ NL ].
Definition shutdown_line : string := NL +:+ "👋 服务器已安全关闭。".
Definition failure_line (reason : string) : string :=
  "❌ 启动失败，原因: " +:+ reason.
Definition hint_line : string :=
  "💡 可能是端口被占用，请尝试关闭其他 Python 运行窗口。".

(** The memory while the module is loaded, up to the last registration,
    and the memory from [os.chdir] on. *)
Definition loading_memory (W : world) (dir : string)
    (db : option mimetypes.MimeTypes) : memory :=
  {| PORT := 8000; DIRECTORY := dir; _db := db; cwd := os_getcwd W |}.

Definition running_memory (W : world) : memory :=
  {| PORT := 8000; DIRECTORY := root W; _db := Some (registered_db W);
     cwd := root W |}.

Definition loading_trace (W : world) : list (event * memory) :=
  let db0 :=
    mimetypes.init (platform_types W) (platform_types_inv W)
      (platform_common W) in
  let db1 := mimetypes.add_type "application/javascript" ".ts" db0 in
  let db2 := mimetypes.add_type "application/javascript" ".tsx" db1 in
  [ (EAssign "PORT", loading_memory W "" None);
    (EAssign "DIRECTORY", loading_memory W (root W) None);
    (EMimetypesInit, loading_memory W (root W) (Some db0));
    (EAddType "application/javascript" ".ts",
     loading_memory W (root W) (Some db1));
    (EAddType "application/javascript" ".tsx",
     loading_memory W (root W) (Some db2));
    (EAddType "application/json" ".json",
     loading_memory W (root W) (Some (registered_db W))) ].

(** What the [except] clauses of [start_game_server] print for an
    exception, and how the function is left. *)
Definition except_events (e : exception) : list event :=
  match e with
  | KeyboardInterrupt => [EPrint shutdown_line]
  | Exception reason => [EPrint (failure_line reason); EPrint hint_line]
  | SystemExit => []
  end.

Definition except_result (e : exception) : result unit :=
  match e with
  | SystemExit => Raise SystemExit
  | _ => Return ()
  end.

(** The handler objects of the accepted requests. *)
Definition handled (P : platform) (W : world) : list event :=
  map (λ r, EHandle r (GameHandler.serve P (registered_db W) (root W)
                         (root W) r))
    (accepted W).

(** The events of [start_game_server], in order. *)
Definition startup_events (W : world) : list event :=
  EChdir (root W) :: map EPrint (banner W)
    ++ [EWebbrowserOpen ("http://localhost:" +:+ pretty 8000); EBind "" 8000].

Definition serving_events (P : platform) (W : world) : list event :=
  match bind_raises W with
  | Some e => except_events e
  | None =>
      map EPrint started_lines ++ EServeForever :: handled P W
        ++ match serve_raises W with
           | Some e => EServerClose :: except_events e
           | None => []
           end
  end.

Definition script_result (W : world) : result unit :=
  match bind_raises W with
  | Some e => except_result e
  | None =>
      match serve_raises W with
      | Some e => except_result e
      | None => Diverge
      end
  end.

(** The same world with another outcome of [webbrowser.open]. *)
Definition with_webbrowser (o : option exception) (W : world) : world :=
  {| __file__ := __file__ W; __name__ := __name__ W;
     os_path_abspath := os_path_abspath W;
     os_path_dirname := os_path_dirname W; os_getcwd := os_getcwd W;
     platform_types := platform_types W;
     platform_types_inv := platform_types_inv W;
     platform_common := platform_common W;
     webbrowser_raises := o; bind_raises := bind_raises W;
     accepted := accepted W; serve_raises := serve_raises W |}.

(** An assignment to the global [name]. *)
Definition is_assign (name : string) (ev : event) : bool :=
  match ev with
  | EAssign n => bool_decide (n = name)
  | _ => false
  end.

Definition is_chdir (ev : event) : bool :=
  match ev with
  | EChdir _ => true
  | _ => false
  end.

(** An event of the serve loop. *)
Definition is_serving (ev : event) : bool :=
  match ev with
  | EServeForever | EHandle _ _ => true
  | _ => false
  end.

(** The directory a handler object was made with, for the events that
    carry one. *)
Definition handler_directory (ev : event) : option string :=
  match ev with
  | EHandle _ self => Some (directory self)
  | _ => None
  end.

(** An event of the loading of the module. *)
Definition is_loading (ev : event) : bool :=
  match ev with
  | EAssign _ | EMimetypesInit | EAddType _ _ => true
  | _ => false
  end.

(** *** Further vocabulary *)

(** The status line [send_response_only] writes. *)
Definition status_line (code : Z) (message : string) : string :=
  BaseHTTPRequestHandler.protocol_version +:+ " " +:+ pretty code +:+ " "
    +:+ message +:+ CRLF.

(** The message of the 501 response of [handle_one_request]. *)
Definition unsupported_method (P : platform) (method : string) : string :=
  "Unsupported method (" +:+ repr P method +:+ ")".

(** A handler after its header buffer, completed by [lines], was flushed. *)
Definition flushed (lines : list string) (self : handler) : handler :=
  {| directory := directory self; command := command self;
     path := path self; request_version := request_version self;
     if_modified_since := if_modified_since self;
     close_connection := close_connection self;
     _headers_buffer := [];
     wfile := wfile self ++ [Headers (_headers_buffer self ++ lines)] |}.

(** More files for the concrete host: a word list and a component whose
    extension is in upper case. *)
Module Fixture.

Definition words_json : file :=
  {| content := "[]"; st_size := 2; st_mtime := 1700000200 |}.

Definition card_tsx : file :=
  {| content := "export const Card = 2;"; st_size := 22;
     st_mtime := 1700000300 |}.

Definition files : gmap string file :=
  <["/srv/game/words.json" := words_json]>
    (<["/srv/game/Card.TSX" := card_tsx]> Example.files).

(** The module imported by another program instead of run. *)
Definition imported : world :=
  {| __file__ := "main.py";
     __name__ := "main";
     os_path_abspath := λ f, "/srv/game/" +:+ f;
     os_path_dirname := λ f, "/srv/game";
     os_getcwd := "/home/dev";
     platform_types := <[".json" := "text/plain"]> ∅;
     platform_types_inv := ∅;
     platform_common := ∅;
     webbrowser_raises := None;
     bind_raises := None;
     accepted := [];
     serve_raises := None |}.

End Fixture.

(** The database of a host on which nothing was registered. *)
Definition host_db (W : world) : mimetypes.MimeTypes :=
  mimetypes.init (platform_types W) (platform_types_inv W)
    (platform_common W).

(** The handler with another [self.command], and the request made with
    another method. *)
Definition set_command (c : string) (h : handler) : handler :=
  {| directory := directory h; command := c; path := path h;
     request_version := request_version h;
     if_modified_since := if_modified_since h;
     close_connection := close_connection h;
     _headers_buffer := _headers_buffer h; wfile := wfile h |}.

Definition with_method (method : string) (r : request) : request :=
  {| req_command := method; req_path := req_path r;
     req_version := req_version r;
     req_if_modified_since := req_if_modified_since r |}.

(** * Properties *)

(** ** The model at work *)

Example splitext_tsx : splitext "/srv/game/App.tsx" = ("/srv/game/App", ".tsx").
Proof. reflexivity. Qed.

Example splitext_hidden : splitext "/srv/.bashrc" = ("/srv/.bashrc", "").
Proof. reflexivity. Qed.

Example splitext_dotted_dir : splitext "/srv/a.b/c" = ("/srv/a.b/c", "").
Proof. reflexivity. Qed.

Example splittype_absolute_path :
  splittype "/srv/x.ts" = (None, "/srv/x.ts").
Proof. reflexivity. Qed.

Example splittype_drive : splittype "C:.ts" = (Some "c", ".ts").
Proof. reflexivity. Qed.

Example guess_archive :
  mimetypes.guess_type
    (mimetypes.init (<[".tar" := "application/x-tar"]> ∅) ∅ ∅)
    "/srv/game/assets.tgz"
  = Some "application/x-tar".
Proof. vm_compute. reflexivity. Qed.

Example get_root_serves_index :
  wfile (GameHandler.serve (Example.host Example.files) Example.db
           "/srv/game" "/srv/game" (Example.get "/"))
  = [ Headers
        [ "HTTP/1.0 200 OK" +:+ CRLF;
          "Server: SimpleHTTP/0.6 Python/3.11.2" +:+ CRLF;
          "Date: Thu, 01 Jan 2026 00:00:00 GMT" +:+ CRLF;
          "Content-type: text/html" +:+ CRLF;
          "Content-Length: 17" +:+ CRLF;
          "Last-Modified: Thu, 01 Jan 2026 00:00:00 GMT" +:+ CRLF;
          "Access-Control-Allow-Origin: *" +:+ CRLF;
          "Cache-Control: no-store, no-cache, must-revalidate, max-age=0"
            +:+ CRLF;
          "Pragma: no-cache" +:+ CRLF;
          "Expires: 0" +:+ CRLF;
          CRLF ];
      Body "<html>game</html>" ].
Proof. vm_compute. reflexivity. Qed.

Example post_is_not_implemented :
  header_blocks
    (wfile (GameHandler.serve (Example.host Example.files) Example.db
              "/srv/game" "/srv/game"
              {| req_command := "POST"; req_path := "/";
                 req_version := "HTTP/1.1";
                 req_if_modified_since := None |}))
  = [ [ "HTTP/1.0 501 Unsupported method ('POST')" +:+ CRLF;
        "Server: SimpleHTTP/0.6 Python/3.11.2" +:+ CRLF;
        "Date: Thu, 01 Jan 2026 00:00:00 GMT" +:+ CRLF;
        "Connection: close" +:+ CRLF;
        "Content-Type: text/html;charset=utf-8" +:+ CRLF;
        "Content-Length: 45" +:+ CRLF;
        "Access-Control-Allow-Origin: *" +:+ CRLF;
        "Cache-Control: no-store, no-cache, must-revalidate, max-age=0"
          +:+ CRLF;
        "Pragma: no-cache" +:+ CRLF;
        "Expires: 0" +:+ CRLF;
        CRLF ] ].
Proof. vm_compute. reflexivity. Qed.

Example http09_has_no_headers :
  wfile (GameHandler.serve (Example.host Example.files) Example.db
           "/srv/game" "/srv/game"
           {| req_command := "GET"; req_path := "/index.html";
              req_version := "HTTP/0.9"; req_if_modified_since := None |})
  = [Body "<html>game</html>"].
Proof. vm_compute. reflexivity. Qed.

Example port_in_use_run :
  let r :=
    run (Example.host Example.files)
      (Example.script None
         (Some (Exception "[Errno 98] Address already in use")) [] None) in
  r.1 = Return ()
  ∧ drop 12 (events r.2)
    = [ EWebbrowserOpen "http://localhost:8000"; EBind "" 8000;
        EPrint (failure_line "[Errno 98] Address already in use");
        EPrint hint_line ].
Proof. vm_compute. split; reflexivity. Qed.
(** The methods are unfolded by name only. *)
Arguments BaseHTTPRequestHandler.send_response_only : simpl never.
Arguments BaseHTTPRequestHandler.send_header : simpl never.
Arguments BaseHTTPRequestHandler.send_response : simpl never.
Arguments BaseHTTPRequestHandler.end_headers : simpl never.
Arguments BaseHTTPRequestHandler.flush_headers : simpl never.
Arguments BaseHTTPRequestHandler.send_error : simpl never.
Arguments SimpleHTTPRequestHandler.guess_type : simpl never.
Arguments SimpleHTTPRequestHandler.send_file_head : simpl never.
Arguments SimpleHTTPRequestHandler.list_directory : simpl never.
Arguments SimpleHTTPRequestHandler.send_head : simpl never.
Arguments SimpleHTTPRequestHandler.do_GET : simpl never.
Arguments SimpleHTTPRequestHandler.do_HEAD : simpl never.
Arguments GameHandler.end_headers : simpl never.
Arguments GameHandler.do_GET : simpl never.
Arguments GameHandler.do_HEAD : simpl never.
Arguments GameHandler.send_error : simpl never.
Arguments GameHandler.handle_one_request : simpl never.
Arguments with_fixed_headers : simpl never.
Arguments lower : simpl never.
Arguments pretty : simpl never.

(** ** Header primitives leave the output stream alone *)

Section HeaderLemmas.
Context (P : platform).

Import BaseHTTPRequestHandler.

Lemma send_header_frame k v self :
  wfile (send_header k v self) = wfile self
  ∧ request_version (send_header k v self) = request_version self
  ∧ command (send_header k v self) = command self
  ∧ path (send_header k v self) = path self
  ∧ directory (send_header k v self) = directory self.
Proof. unfold send_header. repeat case_bool_decide; done. Qed.

Lemma send_header_buffer k v self :
  request_version self ≠ "HTTP/0.9" →
  _headers_buffer (send_header k v self)
  = _headers_buffer self ++ [k +:+ ": " +:+ v +:+ CRLF].
Proof. intros Hv. unfold send_header. repeat case_bool_decide; done. Qed.

Lemma send_response_only_frame code msg self :
  wfile (send_response_only P code msg self) = wfile self
  ∧ request_version (send_response_only P code msg self)
    = request_version self
  ∧ command (send_response_only P code msg self) = command self
  ∧ path (send_response_only P code msg self) = path self
  ∧ directory (send_response_only P code msg self) = directory self.
Proof. unfold send_response_only. case_bool_decide; done. Qed.

Lemma send_response_frame code msg self :
  wfile (send_response P code msg self) = wfile self
  ∧ request_version (send_response P code msg self) = request_version self
  ∧ command (send_response P code msg self) = command self
  ∧ path (send_response P code msg self) = path self
  ∧ directory (send_response P code msg self) = directory self.
Proof.
  unfold send_response.
  destruct (send_response_only_frame code msg self) as (W0 & V0 & C0 & P0 & D0).
  destruct (send_header_frame "Server" (version_string P)
              (send_response_only P code msg self)) as (W1 & V1 & C1 & P1 & D1).
  destruct (send_header_frame "Date" (date_time_string P None)
              (send_header "Server" (version_string P)
                 (send_response_only P code msg self)))
    as (W2 & V2 & C2 & P2 & D2).
  repeat split; congruence.
Qed.

End HeaderLemmas.

(** ** C1: the fixed headers are in every header block *)

Lemma writes_trans a b c o1 o2 :
  writes a b o1 → writes b c o2 → writes a c (o1 ++ o2).
Proof.
  intros (W1 & V1 & C1 & D1) (W2 & V2 & C2 & D2).
  repeat split; try congruence.
  rewrite W2, W1. by rewrite (assoc_L (++)).
Qed.

Lemma responds_after_quiet f g :
  quiet f → responds g → responds (λ self, g (f self)).
Proof.
  intros Hf Hg self. destruct (Hg (f self)) as (out & Hw & Hok).
  exists out. split.
  - apply (writes_trans _ _ _ [] out (Hf self) Hw).
  - destruct (Hf self) as (_ & V & _). by rewrite <- V.
Qed.

Lemma response_ok_body v out b :
  response_ok v out → response_ok v (out ++ [Body b]).
Proof.
  intros (Hall & Hblk & Hnone). split; [|split].
  - intros lines Hin. apply Hall.
    apply elem_of_app in Hin as [Hin | Hin]; [done|].
    apply list_elem_of_singleton in Hin. discriminate.
  - destruct Hblk as [-> | [lines Hin]]; [by left|].
    right. exists lines. apply elem_of_app. by left.
  - intros Hv [lines Hin]. apply (Hnone Hv). exists lines.
    apply elem_of_app in Hin as [Hin | Hin]; [done|].
    apply list_elem_of_singleton in Hin. discriminate.
Qed.

Lemma writes_body a b out d :
  writes a b out → writes a (wfile_write (Body d) b) (out ++ [Body d]).
Proof.
  intros (W1 & V1 & C1 & D1). split; [|split; [|split]].
  - change (wfile (wfile_write (Body d) b)) with (wfile b ++ [Body d]).
    rewrite W1. by rewrite (assoc_L (++)).
  - exact V1.
  - exact C1.
  - exact D1.
Qed.

Lemma responds_then_body f b :
  responds f → responds (λ self, wfile_write (Body b) (f self)).
Proof.
  intros Hf self. destruct (Hf self) as (out & Hw & Hok).
  exists (out ++ [Body b]). split.
  - by apply writes_body.
  - by apply response_ok_body.
Qed.

Section FixedHeaders.
Context (P : platform) (db : mimetypes.MimeTypes).

Lemma quiet_send_header k v : quiet (BaseHTTPRequestHandler.send_header k v).
Proof.
  intros self.
  destruct (send_header_frame k v self) as (W0 & V0 & C0 & _ & D0).
  repeat split; try done. by rewrite W0, app_nil_r.
Qed.

Lemma quiet_send_response code msg :
  quiet (BaseHTTPRequestHandler.send_response P code msg).
Proof.
  intros self.
  destruct (send_response_frame P code msg self)
    as (W0 & V0 & C0 & _ & D0).
  repeat split; try done. by rewrite W0, app_nil_r.
Qed.

Lemma quiet_compose f g : quiet f → quiet g → quiet (λ self, g (f self)).
Proof.
  intros Hf Hg self. apply (writes_trans _ _ _ [] [] (Hf self) (Hg _)).
Qed.

Lemma base_end_headers_wfile self :
  request_version self ≠ "HTTP/0.9" →
  wfile (BaseHTTPRequestHandler.end_headers self)
  = wfile self ++ [Headers (_headers_buffer self ++ [CRLF])].
Proof.
  intros Hv. unfold BaseHTTPRequestHandler.end_headers.
  by rewrite (bool_decide_eq_true_2 _ Hv).
Qed.

Lemma base_end_headers_frame self :
  request_version (BaseHTTPRequestHandler.end_headers self)
  = request_version self
  ∧ command (BaseHTTPRequestHandler.end_headers self) = command self
  ∧ directory (BaseHTTPRequestHandler.end_headers self) = directory self.
Proof. unfold BaseHTTPRequestHandler.end_headers. by case_bool_decide. Qed.

Lemma send_header_http09 k v self :
  request_version self = "HTTP/0.9" →
  _headers_buffer (BaseHTTPRequestHandler.send_header k v self)
  = _headers_buffer self.
Proof.
  intros Hv. unfold BaseHTTPRequestHandler.send_header.
  rewrite (bool_decide_eq_false_2 (request_version self ≠ "HTTP/0.9"))
    by (intros H; by apply H).
  repeat case_bool_decide; done.
Qed.

Lemma with_fixed_headers_frame self :
  wfile (with_fixed_headers self) = wfile self
  ∧ request_version (with_fixed_headers self) = request_version self
  ∧ command (with_fixed_headers self) = command self
  ∧ directory (with_fixed_headers self) = directory self.
Proof.
  unfold with_fixed_headers.
  set (s1 := BaseHTTPRequestHandler.send_header
               "Access-Control-Allow-Origin" "*" self).
  set (s2 := BaseHTTPRequestHandler.send_header "Cache-Control" _ s1).
  set (s3 := BaseHTTPRequestHandler.send_header "Pragma" _ s2).
  destruct (send_header_frame "Access-Control-Allow-Origin" "*" self)
    as (W1 & V1 & C1 & _ & D1). fold s1 in W1, V1, C1, D1.
  destruct (send_header_frame "Cache-Control"
              "no-store, no-cache, must-revalidate, max-age=0" s1)
    as (W2 & V2 & C2 & _ & D2). fold s2 in W2, V2, C2, D2.
  destruct (send_header_frame "Pragma" "no-cache" s2)
    as (W3 & V3 & C3 & _ & D3).
  fold s3 in W3, V3, C3, D3.
  destruct (send_header_frame "Expires" "0" s3) as (W4 & V4 & C4 & _ & D4).
  repeat split; congruence.
Qed.

Lemma with_fixed_headers_buffer self :
  request_version self ≠ "HTTP/0.9" →
  _headers_buffer (with_fixed_headers self)
  = _headers_buffer self ++ fixed_headers.
Proof.
  intros Hv. unfold with_fixed_headers, fixed_headers.
  set (s1 := BaseHTTPRequestHandler.send_header
               "Access-Control-Allow-Origin" "*" self).
  set (s2 := BaseHTTPRequestHandler.send_header "Cache-Control" _ s1).
  set (s3 := BaseHTTPRequestHandler.send_header "Pragma" _ s2).
  destruct (send_header_frame "Access-Control-Allow-Origin" "*" self)
    as (_ & V1 & _). fold s1 in V1.
  destruct (send_header_frame "Cache-Control"
              "no-store, no-cache, must-revalidate, max-age=0" s1)
    as (_ & V2 & _). fold s2 in V2.
  destruct (send_header_frame "Pragma" "no-cache" s2) as (_ & V3 & _).
  fold s3 in V3.
  rewrite (send_header_buffer "Expires" "0" s3) by congruence.
  unfold s3.
  rewrite (send_header_buffer "Pragma" "no-cache" s2) by congruence.
  unfold s2.
  rewrite (send_header_buffer "Cache-Control" _ s1) by congruence.
  unfold s1.
  rewrite (send_header_buffer "Access-Control-Allow-Origin" "*" self) by done.
  by rewrite <- !(assoc_L (++)).
Qed.

Lemma end_headers_unfold self :
  GameHandler.end_headers self
  = BaseHTTPRequestHandler.end_headers (with_fixed_headers self).
Proof. reflexivity. Qed.

(** [GameHandler.end_headers] flushes one block that ends with the four
    lines and the blank line, unless the request is HTTP/0.9, for which
    the library writes no header at all. *)
Lemma end_headers_block self :
  request_version self ≠ "HTTP/0.9" →
  wfile (GameHandler.end_headers self)
  = wfile self ++ [Headers (_headers_buffer self ++ fixed_headers ++ [CRLF])].
Proof.
  intros Hv. rewrite end_headers_unfold.
  destruct (with_fixed_headers_frame self) as (W & V & _).
  rewrite base_end_headers_wfile by congruence.
  rewrite W, with_fixed_headers_buffer by done.
  by rewrite <- !(assoc_L (++)).
Qed.

Lemma end_headers_http09 self :
  request_version self = "HTTP/0.9" →
  wfile (GameHandler.end_headers self) = wfile self.
Proof.
  intros Hv. rewrite end_headers_unfold.
  destruct (with_fixed_headers_frame self) as (W & V & _).
  unfold BaseHTTPRequestHandler.end_headers.
  rewrite (bool_decide_eq_false_2
             (request_version (with_fixed_headers self) ≠ "HTTP/0.9")).
  - done.
  - rewrite V. intros H. by apply H.
Qed.

Lemma end_headers_frame self :
  request_version (GameHandler.end_headers self) = request_version self
  ∧ command (GameHandler.end_headers self) = command self
  ∧ directory (GameHandler.end_headers self) = directory self.
Proof.
  rewrite end_headers_unfold.
  destruct (with_fixed_headers_frame self) as (_ & V & C & D).
  destruct (base_end_headers_frame (with_fixed_headers self))
    as (V' & C' & D').
  repeat split; congruence.
Qed.

Lemma responds_end_headers : responds GameHandler.end_headers.
Proof.
  intros self. destruct (end_headers_frame self) as (V & C & D).
  destruct (decide (request_version self = "HTTP/0.9")) as [Hv | Hv].
  - exists []. split.
    + repeat split; try done. by rewrite end_headers_http09, app_nil_r.
    + split; [|split; [by left|]].
      * intros lines Hin. by apply elem_of_nil in Hin.
      * intros _ [lines Hin]. by apply elem_of_nil in Hin.
  - exists [Headers (_headers_buffer self ++ fixed_headers ++ [CRLF])].
    split.
    + repeat split; try done. by apply end_headers_block.
    + split; [|split].
      * intros lines Hin l Hl. apply list_elem_of_singleton in Hin.
        assert (lines = _headers_buffer self ++ fixed_headers ++ [CRLF])
          as -> by congruence.
        apply elem_of_app. right. apply elem_of_app. by left.
      * right. eexists. by apply list_elem_of_singleton.
      * intros Hv'. by destruct Hv.
Qed.

End FixedHeaders.

Section EveryResponse.
Context (P : platform) (db : mimetypes.MimeTypes).

Lemma responds_send_error code message explain :
  responds (GameHandler.send_error P code message explain).
Proof.
  unfold GameHandler.send_error, BaseHTTPRequestHandler.send_error.
  destruct (match responses P code with
            | Some r => r | None => ("???", "???") end) as [shortmsg longmsg].
  set (body := error_page P code _ _). clearbody body.
  set (msg := default shortmsg message). clearbody msg.
  set (has_body := (200 <=? code) && _). clearbody has_body.
  pose proof (quiet_send_response P code (Some msg)) as Q1.
  pose proof (quiet_send_header "Connection" "close") as Q2.
  pose proof (quiet_send_header "Content-Type"
                BaseHTTPRequestHandler.error_content_type) as Q3.
  pose proof (quiet_send_header "Content-Length"
                (pretty (Z.of_nat (String.length body)))) as Q4.
  assert (responds (λ self,
    GameHandler.end_headers
      (if has_body
       then BaseHTTPRequestHandler.send_header "Content-Length"
              (pretty (Z.of_nat (String.length body)))
              (BaseHTTPRequestHandler.send_header "Content-Type"
                 BaseHTTPRequestHandler.error_content_type
                 (BaseHTTPRequestHandler.send_header "Connection" "close"
                    (BaseHTTPRequestHandler.send_response P code (Some msg)
                       self)))
       else BaseHTTPRequestHandler.send_header "Connection" "close"
              (BaseHTTPRequestHandler.send_response P code (Some msg) self)))
    ) as R.
  { apply (responds_after_quiet
             (λ self, if has_body then _ else _) GameHandler.end_headers);
      [|apply responds_end_headers].
    destruct has_body.
    - apply (quiet_compose _ _
               (quiet_compose _ _ (quiet_compose _ _ Q1 Q2) Q3) Q4).
    - apply (quiet_compose _ _ Q1 Q2). }
  intros self. specialize (R self). simpl in R.
  destruct R as (out & Hw & Hok).
  match goal with
  | |- context [if ?c then wfile_write _ ?x else _] => destruct c
  end.
  - exists (out ++ [Body body]). split; [|by apply response_ok_body].
    by apply writes_body.
  - by exists out.
Qed.

Lemma writes_nil self : writes self self [].
Proof. repeat split; try done. by rewrite app_nil_r. Qed.

Lemma writes_send_header self s k v :
  writes self s [] →
  writes self (BaseHTTPRequestHandler.send_header k v s) [].
Proof.
  intros H. apply (writes_trans _ _ _ [] [] H (quiet_send_header k v s)).
Qed.

Lemma writes_send_response self s code msg :
  writes self s [] →
  writes self (BaseHTTPRequestHandler.send_response P code msg s) [].
Proof.
  intros H.
  apply (writes_trans _ _ _ [] [] H (quiet_send_response P code msg s)).
Qed.

Lemma end_headers_at self s :
  writes self s [] →
  ∃ out, writes self (GameHandler.end_headers s) out
         ∧ response_ok (request_version self) out.
Proof.
  intros H. destruct (responds_end_headers s) as (out & Hw & Hok).
  exists out. split.
  - apply (writes_trans _ _ _ [] out H Hw).
  - destruct H as (_ & V & _). by rewrite <- V.
Qed.

Ltac quiet_chain :=
  repeat lazymatch goal with
    | |- writes _ (BaseHTTPRequestHandler.send_header _ _ _) [] =>
        apply writes_send_header
    | |- writes _ (BaseHTTPRequestHandler.send_response _ _ _ _) [] =>
        apply writes_send_response
    end;
  apply writes_nil.

Lemma responds_send_file_head fspath :
  responds (λ self,
    (SimpleHTTPRequestHandler.send_file_head P db GameHandler.end_headers
       fspath self).1).
Proof.
  intros self. unfold SimpleHTTPRequestHandler.send_file_head.
  destruct (endswith_slash fspath); simpl.
  { apply (responds_send_error 404 (Some "File not found") None). }
  destruct (os_open P fspath) as [f|]; simpl.
  2: { apply (responds_send_error 404 (Some "File not found") None). }
  match goal with |- context [if ?c then _ else _] => destruct c end; simpl;
    apply end_headers_at; quiet_chain.
Qed.

Lemma responds_list_directory fspath :
  responds (λ self,
    (SimpleHTTPRequestHandler.list_directory P GameHandler.end_headers
       fspath self).1).
Proof.
  intros self. unfold SimpleHTTPRequestHandler.list_directory.
  destruct (os_listdir P fspath) as [entries|]; simpl.
  - apply end_headers_at; quiet_chain.
  - apply (responds_send_error 404
             (Some "No permission to list directory") None).
Qed.

Lemma responds_send_head :
  responds (λ self,
    (SimpleHTTPRequestHandler.send_head P db GameHandler.end_headers self).1).
Proof.
  intros self. unfold SimpleHTTPRequestHandler.send_head.
  repeat match goal with
         | |- context [if ?c then _ else _] => destruct c; simpl
         end;
    first [ apply end_headers_at; quiet_chain
          | apply (responds_send_file_head _ self)
          | apply (responds_list_directory _ self) ].
Qed.

Lemma responds_base_do_GET :
  responds (SimpleHTTPRequestHandler.do_GET P db GameHandler.end_headers).
Proof.
  intros self. unfold SimpleHTTPRequestHandler.do_GET.
  destruct (responds_send_head self) as (out & Hw & Hok).
  destruct (SimpleHTTPRequestHandler.send_head P db GameHandler.end_headers
              self) as [s [f|]]; simpl in *.
  - exists (out ++ [Body (content f)]). split; [|by apply response_ok_body].
    by apply writes_body.
  - by exists out.
Qed.

Lemma responds_do_GET : responds (GameHandler.do_GET P db).
Proof.
  intros self. unfold GameHandler.do_GET.
  case_bool_decide.
  - destruct (responds_base_do_GET (set_path "/index.html" self))
      as (out & Hw & Hok). by exists out.
  - apply responds_base_do_GET.
Qed.

Lemma responds_do_HEAD : responds (GameHandler.do_HEAD P db).
Proof. intros self. apply responds_send_head. Qed.

Lemma responds_handle_one_request :
  responds (GameHandler.handle_one_request P db).
Proof.
  intros self. unfold GameHandler.handle_one_request, GameHandler.getattr.
  repeat case_bool_decide.
  - apply responds_do_GET.
  - apply responds_do_HEAD.
  - apply responds_send_error.
Qed.

End EveryResponse.

Lemma responds_answers f self :
  responds f → answers_with_fixed_headers self (f self).
Proof.
  intros Hf. destruct (Hf self) as (out & (W & _) & Hall & Hblk & Hnone).
  exists out. split; [done|]. split.
  - intros Hv. split; [by destruct Hblk|done].
  - intros Hv lines Hin. apply (Hnone Hv). by exists lines.
Qed.

(** C1, as amended.  Whatever the request (method, target, conditional
    header), the served directory and the host, a response of
    [GameHandler] to a request whose version is not HTTP/0.9 has a header
    block, and every header block it writes carries the four lines
    [Access-Control-Allow-Origin: *], [Cache-Control: no-store, no-cache,
    must-revalidate, max-age=0], [Pragma: no-cache] and [Expires: 0].
    This holds for the dispatch of a parsed request, with the statuses
    200, 301, 304, 404 and 501, and for every call of [send_error], with
    any status and message and in any state of the handler: the responses
    the library sends before a method is called (400, 414, 431, 505) are
    such calls ([self.command] is [None] in some of them, which the only
    test on it, against [HEAD], treats as any other method).  A response
    written while the version is HTTP/0.9 has no header block at all, so
    none of the four lines: the library writes no header section then. *)
Theorem C1_fixed_headers_unless_http09
    (P : platform) (db : mimetypes.MimeTypes) :
  (∀ self : handler,
     answers_with_fixed_headers self
       (GameHandler.handle_one_request P db self))
  ∧ (∀ (code : Z) (message explain : option string) (self : handler),
       answers_with_fixed_headers self
         (GameHandler.send_error P code message explain self)).
Proof.
  split.
  - intros self. apply responds_answers, responds_handle_one_request.
  - intros code message explain self.
    apply (responds_answers (GameHandler.send_error P code message explain)).
    apply responds_send_error.
Qed.

(** The claim as worded fails: the response to the HTTP/0.9 request
    [GET /index.html] (a request line without a version) is the content of
    the file and nothing else, with none of the four headers. *)
Lemma C1_http09_response_has_no_headers :
  let out :=
    wfile (GameHandler.serve (Example.host Example.files) Example.db
             "/srv/game" "/srv/game"
             {| req_command := "GET"; req_path := "/index.html";
                req_version := "HTTP/0.9";
                req_if_modified_since := None |}) in
  out = [Body "<html>game</html>"]
  ∧ ¬ (∃ lines, Headers lines ∈ out
                ∧ ∀ l, l ∈ fixed_headers → l ∈ lines).
Proof.
  assert
    (wfile (GameHandler.serve (Example.host Example.files) Example.db
              "/srv/game" "/srv/game"
              {| req_command := "GET"; req_path := "/index.html";
                 req_version := "HTTP/0.9";
                 req_if_modified_since := None |})
     = [Body "<html>game</html>"]) as Hout
    by (vm_compute; reflexivity).
  cbv zeta. rewrite Hout. split; [reflexivity|].
  intros (lines & Hin & _).
  apply list_elem_of_singleton in Hin. discriminate Hin.
Qed.

(** ** C2, C9, C10: the substitution of the root target *)

(** C2. A GET whose target is exactly [/] is served as the GET of
    [/index.html]: [do_GET] replaces the target and hands over to the base
    class, so the handler ends in the very same state (status, headers and
    content written) as for an explicit GET of [/index.html], whatever the
    served directory holds. *)
Theorem C2_root_is_served_as_index
    (P : platform) (db : mimetypes.MimeTypes) (self : handler) :
  GameHandler.do_GET P db (set_path "/" self)
  = SimpleHTTPRequestHandler.do_GET P db GameHandler.end_headers
      (set_path "/index.html" self)
  ∧ GameHandler.do_GET P db (set_path "/" self)
    = GameHandler.do_GET P db (set_path "/index.html" self).
Proof.
  unfold GameHandler.do_GET. cbn [path set_path].
  rewrite (bool_decide_eq_true_2 ("/" = "/")) by done.
  rewrite (bool_decide_eq_false_2 ("/index.html" = "/")) by done.
  split; reflexivity.
Qed.

(** C9. The test of [do_GET] is an equality of the raw request target with
    [/]: for every other target, and so for [/?v=1], the target is left as
    it is and the request goes to the base class's [do_GET] unchanged. *)
Theorem C9_only_the_exact_root_is_rewritten
    (P : platform) (db : mimetypes.MimeTypes) (self : handler) :
  path self ≠ "/" →
  GameHandler.do_GET P db self
  = SimpleHTTPRequestHandler.do_GET P db GameHandler.end_headers self.
Proof.
  intros Hne. unfold GameHandler.do_GET.
  by rewrite (bool_decide_eq_false_2 _ Hne).
Qed.

Lemma C9_root_with_query_witness :
  let self :=
    GameHandler.new "/srv/game" "/srv/game" (Example.get "/?v=1") in
  path self = "/?v=1"
  ∧ GameHandler.do_GET (Example.host Example.files) Example.db self
    = SimpleHTTPRequestHandler.do_GET (Example.host Example.files) Example.db
        GameHandler.end_headers self.
Proof.
  split; [reflexivity|].
  apply (C9_only_the_exact_root_is_rewritten
           (Example.host Example.files) Example.db).
  simpl. discriminate.
Defined.

(** C10. [GameHandler] defines no [do_HEAD]: a HEAD request, also one for
    [/], runs the base class's [do_HEAD] on the target as received.  HEAD
    and GET of the root can therefore differ: in a directory that holds
    [index.htm] and no [index.html], HEAD of [/] is answered with the
    headers of [index.htm] while GET of [/] is answered with the 404 for
    [/index.html]. *)
Theorem C10_head_of_root_is_not_rewritten :
  (∀ (P : platform) (db : mimetypes.MimeTypes) (self : handler),
     GameHandler.getattr P db "do_HEAD" = Some (GameHandler.do_HEAD P db)
     ∧ GameHandler.do_HEAD P db (set_path "/" self)
       = SimpleHTTPRequestHandler.do_HEAD P db GameHandler.end_headers
           (set_path "/" self))
  ∧ header_blocks
      (wfile (GameHandler.serve (Example.host Example.files_htm) Example.db
                "/srv/game" "/srv/game" (Example.head "/")))
    ≠ header_blocks
        (wfile (GameHandler.serve (Example.host Example.files_htm) Example.db
                  "/srv/game" "/srv/game" (Example.get "/"))).
Proof.
  split.
  - intros P db self. split; [|reflexivity].
    unfold GameHandler.getattr.
    rewrite (bool_decide_eq_false_2 ("do_HEAD" = "do_GET")) by done.
    by rewrite (bool_decide_eq_true_2 ("do_HEAD" = "do_HEAD")).
  - vm_compute. discriminate.
Qed.

(** ** C4: a path that names nothing is answered with the library's 404 *)

Lemma set_path_same self : set_path (path self) self = self.
Proof. by destruct self. Qed.

Lemma do_GET_served_target P db self :
  GameHandler.do_GET P db self
  = SimpleHTTPRequestHandler.do_GET P db GameHandler.end_headers
      (set_path (served_target (path self)) self).
Proof.
  unfold GameHandler.do_GET, served_target.
  case_bool_decide; [done|]. by rewrite set_path_same.
Qed.

Section NotFound.
Context (P : platform).




End NotFound.



(** ** The run of the script, in closed form *)

Section Run.
Context (P : platform) (W : world).

Lemma for_each_handle (l : list request) s :
  for_each l (λ r,
    m ← gets id;
    emit (EHandle r (GameHandler.serve P (the_db W m) (DIRECTORY m)
                       (cwd m) r))) s
  = (Return (),
     {| mem := mem s;
        trace := trace s
          ++ map (λ r, (EHandle r (GameHandler.serve P (the_db W (mem s))
                                     (DIRECTORY (mem s)) (cwd (mem s)) r),
                        mem s)) l |}).
Proof.
  revert s. induction l as [|r l IH]; intros s.
  - cbn [for_each map]. rewrite app_nil_r. by destruct s.
  - cbn [for_each map]. cbv [mbind M_bind gets emit id].
    rewrite IH. cbn [mem trace]. by rewrite <- app_assoc.
Qed.

Lemma serve_forever_run s :
  serve_forever P W s
  = (match serve_raises W with Some e => Raise e | None => Diverge end,
     {| mem := mem s;
        trace := trace s ++ (EServeForever, mem s)
          :: map (λ r, (EHandle r (GameHandler.serve P (the_db W (mem s))
                                     (DIRECTORY (mem s)) (cwd (mem s)) r),
                        mem s)) (accepted W) |}).
Proof.
  unfold serve_forever. cbv [mbind M_bind emit].
  rewrite for_each_handle. cbn [mem trace]. rewrite <- app_assoc.
  cbn [app]. by destruct (serve_raises W).
Qed.

(** The whole run: the module is loaded, then [start_game_server] runs
    in the memory [running_memory]. *)
Lemma run_script :
  __name__ W = "__main__" →
  run P W
  = (script_result W,
     {| mem := running_memory W;
        trace := loading_trace W
          ++ map (λ ev, (ev, running_memory W))
               (startup_events W ++ serving_events P W) |}).
Proof.
  intros Hn. unfold run.
  match goal with
  | |- ?l = _ =>
      let l' :=
        eval cbv [main boot start_game_server mbind M_bind mret M_ret
                  modify emit gets try_except with_ThreadedHTTPServer
                  ThreadedHTTPServer try_finally os_chdir print
                  mimetypes_init mimetypes_add_type webbrowser_open raise
                  mem trace PORT DIRECTORY _db cwd the_db] in l in
      change l with l'
  end.
  rewrite (bool_decide_eq_true_2 _ Hn).
  unfold script_result, serving_events.
  destruct (webbrowser_raises W) as [eb|];
    (destruct (bind_raises W) as [[| |reason]|]);
    rewrite ?serve_forever_run; cbn [mem trace];
    try (destruct (serve_raises W) as [[| |reason]|]);
    unfold loading_trace, startup_events, banner, started_lines,
      except_events, handled;
    repeat (progress (rewrite ?map_app, ?map_map, ?app_nil_r,
                        <- ?app_assoc;
                      cbn [map app]));
    reflexivity.
Qed.

(** Loaded as a script or imported, the module leaves the registered
    database behind. *)
Lemma run_registers : the_db W (mem (run P W).2) = registered_db W.
Proof.
  destruct (decide (__name__ W = "__main__")) as [Hn|Hn].
  - by rewrite (run_script Hn).
  - unfold run.
    match goal with
    | |- context [main ?w ?b] =>
        let l' :=
          eval cbv [main boot mbind M_bind mret M_ret modify emit
                    mimetypes_init mimetypes_add_type mem trace PORT
                    DIRECTORY _db cwd the_db] in (main w b) in
        change (main w b) with l'
    end.
    by rewrite (bool_decide_eq_false_2 _ Hn).
Qed.

End Run.

(** ** C3: TypeScript sources are served as JavaScript *)

(** *** Facts on [splitext] and [splittype] *)

Lemma append_nil_l s : "" +:+ s = s.
Proof. reflexivity. Qed.

Lemma append_cons c a b : String c a +:+ b = String c (a +:+ b).
Proof. reflexivity. Qed.

Lemma append_nil_r s : s +:+ "" = s.
Proof. induction s as [|c s IH]; [done|by rewrite append_cons, IH]. Qed.

Ltac str_simpl := repeat (rewrite ?append_cons, ?append_nil_l; simpl).

Lemma substring_all s : String.substring 0 (String.length s) s = s.
Proof. induction s as [|c s IH]; simpl; [done|by rewrite IH]. Qed.

Lemma substring_split (n : nat) s :
  String.substring 0 n s +:+ String.substring n (String.length s - n) s = s.
Proof.
  revert n. induction s as [|c s IH]; intros [|n]; simpl; try done.
  - by rewrite append_nil_l, substring_all.
  - by rewrite append_cons, IH.
Qed.

Lemma slice_split (i : Z) p : slice_to i p +:+ slice_from i p = p.
Proof. apply substring_split. Qed.

Lemma splitext_loop_slices p i d fuel r :
  splitext_loop p i d fuel = Some r → r = (slice_to d p, slice_from d p).
Proof.
  revert i. induction fuel as [|fuel IH]; intros i; simpl; [done|].
  destruct (i <? d); [|done].
  case_bool_decide; [apply IH|]. by intros [= <-].
Qed.

Lemma splitext_app p : (splitext p).1 +:+ (splitext p).2 = p.
Proof.
  unfold splitext.
  destruct (rfind "/" p <? rfind "." p); simpl.
  - destruct (splitext_loop _ _ _ _) as [r|] eqn:Hr; simpl.
    + apply splitext_loop_slices in Hr as ->. apply slice_split.
    + apply append_nil_r.
  - apply append_nil_r.
Qed.

Lemma endswith_slash_app b e :
  e ≠ "" → endswith_slash (b +:+ e) = endswith_slash e.
Proof.
  intros He. induction b as [|c b IH]; [done|].
  rewrite append_cons. simpl. rewrite IH.
  destruct (b +:+ e) eqn:Hbe; [|done].
  destruct b; [by rewrite append_nil_l in Hbe|by rewrite append_cons in Hbe].
Qed.

Lemma splittype_absolute url :
  startswith url "/" = true → splittype url = (None, url).
Proof.
  destruct url as [|c url]; simpl; [done|].
  destruct (Ascii.eqb_spec c "/"%char) as [->|]; done.
Qed.

(** *** The guess for a database with the built-in suffix tables *)

Section GuessType.
Context (db : mimetypes.MimeTypes).
Context (ext type : string).
Hypothesis Hsuffix : mimetypes.suffix_map db !! lower ext = None.
Hypothesis Hencoding : mimetypes.encodings_map db !! ext = None.
Hypothesis Htype : mimetypes.types_map db !! lower ext = Some type.
Hypothesis Hmap1 : SimpleHTTPRequestHandler.extensions_map !! ext = None.
Hypothesis Hmap2 :
  SimpleHTTPRequestHandler.extensions_map !! lower ext = None.
Hypothesis Hnonempty : type ≠ "".

Lemma mimetypes_guess_type_ext fspath :
  startswith fspath "/" = true →
  (splitext fspath).2 = ext →
  mimetypes.guess_type db fspath = Some type.
Proof.
  intros Habs Hext.
  unfold mimetypes.guess_type, mimetypes.guess_type_fuel.
  rewrite (splittype_absolute _ Habs).
  rewrite (bool_decide_eq_false_2 (None = Some "data")) by done.
  destruct (splitext fspath) as [base ext'] eqn:Hsplit.
  simpl in Hext. subst ext'. simpl. rewrite Hsuffix.
  rewrite (bool_decide_eq_false_2
             (is_Some (mimetypes.encodings_map db !! ext))).
  - by rewrite Htype.
  - rewrite Hencoding. by intros [? ?].
Qed.

Lemma guess_type_ext fspath :
  startswith fspath "/" = true →
  (splitext fspath).2 = ext →
  SimpleHTTPRequestHandler.guess_type db fspath = type.
Proof.
  intros Habs Hext. unfold SimpleHTTPRequestHandler.guess_type.
  rewrite Hext, Hmap1, Hmap2, (mimetypes_guess_type_ext _ Habs Hext).
  by rewrite (bool_decide_eq_false_2 _ Hnonempty).
Qed.

End GuessType.

(** *** Two rounds are enough for the built-in suffix table *)

Lemma rfind_aux_app c b s i last :
  rfind_aux c (b +:+ s) i last
  = rfind_aux c s (i + Z.of_nat (String.length b)) (rfind_aux c b i last).
Proof.
  revert i last. induction b as [|a b IH]; intros i last; str_simpl.
  - f_equal. lia.
  - rewrite IH. f_equal. lia.
Qed.

Lemma rfind_aux_bound c b i last :
  last < i → rfind_aux c b i last < i + Z.of_nat (String.length b).
Proof.
  revert i last. induction b as [|a b IH]; intros i last Hlt; simpl.
  - lia.
  - specialize (IH (i + 1) (if Ascii.eqb a c then i else last)).
    destruct (Ascii.eqb a c); lia.
Qed.

Lemma rfind_aux_lower c b i last :
  last ≤ rfind_aux c b i last ∨ i ≤ rfind_aux c b i last.
Proof.
  revert i last. induction b as [|a b IH]; intros i last; simpl.
  - lia.
  - destruct (IH (i + 1) (if Ascii.eqb a c then i else last)) as [H|H];
      destruct (Ascii.eqb a c); lia.
Qed.

Lemma get_app_r b s (k : nat) :
  String.get (String.length b + k) (b +:+ s) = String.get k s.
Proof. induction b as [|a b IH]; str_simpl; done. Qed.

Lemma substring_app_r b s (k m : nat) :
  String.substring (String.length b + k) m (b +:+ s) = String.substring k m s.
Proof. induction b as [|a b IH]; str_simpl; done. Qed.

Lemma length_app b s :
  String.length (b +:+ s) = (String.length b + String.length s)%nat.
Proof. induction b as [|a b IH]; str_simpl; [done|by rewrite IH]. Qed.

Lemma splitext_loop_finds p d (j : Z) fuel i :
  0 ≤ i ≤ j → j < d →
  String.get (Z.to_nat j) p ≠ Some "."%char →
  (Z.to_nat (j - i) < fuel)%nat →
  splitext_loop p i d fuel = Some (slice_to d p, slice_from d p).
Proof.
  revert i. induction fuel as [|fuel IH]; intros i Hij Hjd Hget Hfuel;
    [lia|]. simpl.
  rewrite (proj2 (Z.ltb_lt i d)) by lia.
  case_bool_decide as Hdot; [|done].
  assert (i ≠ j) by (intros ->; done).
  apply IH; try done; lia.
Qed.

(** The extension of [base] followed by a suffix of the shape [.xyz.rest],
    where [rest] has neither dot nor slash. *)
Lemma splitext_double_suffix base x y z rest :
  x ≠ "."%char → x ≠ "/"%char → y ≠ "/"%char → z ≠ "/"%char →
  (∀ i last, rfind_aux "." rest i last = last) →
  (∀ i last, rfind_aux "/" rest i last = last) →
  (splitext
     (base +:+ String "." (String x (String y (String z (String "." rest)))))).2
  = String "." rest.
Proof.
  intros Hx Hx' Hy' Hz' Hdot Hsep.
  apply Ascii.eqb_neq in Hx, Hx', Hy', Hz'.
  set (suffix := String "." (String x (String y (String z (String "." rest))))).
  set (n := Z.of_nat (String.length base)).
  assert (rfind "." (base +:+ suffix) = n + 4) as Hd.
  { unfold rfind. rewrite rfind_aux_app. subst suffix. simpl.
    rewrite Hdot. fold n. lia. }
  assert (rfind "/" (base +:+ suffix) = rfind_aux "/" base 0 (-1)) as Hs.
  { unfold rfind. rewrite rfind_aux_app. subst suffix. simpl.
    by rewrite Hx', Hy', Hz', Hsep. }
  pose proof (rfind_aux_bound "/" base 0 (-1) ltac:(lia)) as Hub.
  pose proof (rfind_aux_lower "/" base 0 (-1)) as Hlb. fold n in Hub.
  unfold splitext. rewrite Hd, Hs.
  rewrite (proj2 (Z.ltb_lt _ _)) by lia.
  rewrite (splitext_loop_finds _ _ (n + 1)); simpl; try lia.
  - unfold slice_from.
    replace (Z.to_nat (n + 4)) with (String.length base + 4)%nat by lia.
    rewrite substring_app_r, length_app. subst suffix. simpl.
    replace (String.length base + S (S (S (S (S (String.length rest)))))
             - (String.length base + 4))%nat
      with (S (String.length rest)) by lia.
    simpl. by rewrite substring_all.
  - replace (Z.to_nat (n + 1)) with (String.length base + 1)%nat by lia.
    rewrite get_app_r. subst suffix. simpl. intros [= ->]. done.
Qed.

(** Whatever the extension, the suffix loop over the built-in table is
    left within two rounds. *)
Lemma suffix_loop_default_total (db : mimetypes.MimeTypes) base ext :
  mimetypes.suffix_map db = mimetypes._suffix_map_default →
  is_Some (mimetypes.suffix_loop db base ext 2).
Proof.
  intros Hdb. simpl. rewrite Hdb.
  destruct (mimetypes._suffix_map_default !! lower ext) as [suffix|] eqn:Hl;
    [|done].
  assert (suffix ∈ [".svg.gz"; ".tar.gz"; ".tar.bz2"; ".tar.xz"]) as Hin.
  { unfold mimetypes._suffix_map_default in Hl.
    repeat (apply lookup_insert_Some in Hl as [[_ <-]|[_ Hl]];
            [set_solver|]).
    by rewrite lookup_empty in Hl. }
  assert (mimetypes._suffix_map_default
            !! lower (splitext (base +:+ suffix)).2 = None) as Hext.
  { repeat (apply elem_of_cons in Hin as [->|Hin]);
      [..|by apply elem_of_nil in Hin];
      rewrite splitext_double_suffix by done; reflexivity. }
  destruct (splitext (base +:+ suffix)) as [base' ext']. simpl in Hext.
  by rewrite Hext.
Qed.

(** *** The registered database *)

Lemma registered_db_types (W : world) :
  mimetypes.types_map (registered_db W) !! ".ts"
  = Some "application/javascript"
  ∧ mimetypes.types_map (registered_db W) !! ".tsx"
    = Some "application/javascript"
  ∧ mimetypes.types_map (registered_db W) !! ".json"
    = Some "application/json".
Proof.
  unfold registered_db, mimetypes.add_type; cbn [mimetypes.types_map].
  split; [|split].
  - rewrite lookup_insert_ne by done. rewrite lookup_insert_ne by done.
    apply lookup_insert_eq.
  - rewrite lookup_insert_ne by done. apply lookup_insert_eq.
  - apply lookup_insert_eq.
Qed.

Lemma registered_db_guess (W : world) fspath :
  startswith fspath "/" = true →
  (splitext fspath).2 = ".ts" ∨ (splitext fspath).2 = ".tsx" →
  SimpleHTTPRequestHandler.guess_type (registered_db W) fspath
  = "application/javascript".
Proof.
  destruct (registered_db_types W) as (Hts & Htsx & _).
  intros Habs [Hext|Hext].
  - apply (guess_type_ext (registered_db W) ".ts" "application/javascript");
      try done; vm_compute; reflexivity.
  - apply (guess_type_ext (registered_db W) ".tsx" "application/javascript");
      try done; vm_compute; reflexivity.
Qed.

(** *** The response *)

Lemma ext_not_slash fspath ext :
  (splitext fspath).2 = ext → ext ≠ "" → endswith_slash ext = false →
  endswith_slash fspath = false.
Proof.
  intros Hext Hne Hs. rewrite <- (splitext_app fspath), Hext.
  by rewrite endswith_slash_app.
Qed.

Section ContentType.
Context (P : platform) (db : mimetypes.MimeTypes).

(** The 200 response of [send_head] for a file that opens. *)
Lemma send_file_head_200 fspath f self :
  endswith_slash fspath = false →
  os_open P fspath = Some f →
  modified_since self f →
  request_version self ≠ "HTTP/0.9" →
  ∃ lines,
    wfile (SimpleHTTPRequestHandler.send_file_head P db
             GameHandler.end_headers fspath self).1
    = wfile self ++ [Headers lines]
    ∧ "Content-type" +:+ ": "
        +:+ SimpleHTTPRequestHandler.guess_type db fspath +:+ CRLF ∈ lines
    ∧ (SimpleHTTPRequestHandler.send_file_head P db
         GameHandler.end_headers fspath self).2 = Some f.
Proof.
  intros Hslash Hopen Hmod Hv.
  unfold SimpleHTTPRequestHandler.send_file_head.
  rewrite Hslash, Hopen.
  replace (match if_modified_since self with
           | Some ims => st_mtime f <=? ims
           | None => false
           end) with false
    by (unfold modified_since in Hmod;
        destruct (if_modified_since self); [symmetry; lia|done]).
  cbn [fst snd].
  set (s0 := BaseHTTPRequestHandler.send_response P 200 None self).
  set (s1 := BaseHTTPRequestHandler.send_header "Content-type" _ s0).
  set (s2 := BaseHTTPRequestHandler.send_header "Content-Length" _ s1).
  set (s3 := BaseHTTPRequestHandler.send_header "Last-Modified" _ s2).
  destruct (send_response_frame P 200 None self) as (W0 & V0 & _).
  fold s0 in W0, V0.
  destruct (send_header_frame "Content-type"
              (SimpleHTTPRequestHandler.guess_type db fspath) s0)
    as (W1 & V1 & _). fold s1 in W1, V1.
  destruct (send_header_frame "Content-Length" (pretty (st_size f)) s1)
    as (W2 & V2 & _). fold s2 in W2, V2.
  destruct (send_header_frame "Last-Modified"
              (date_time_string P (Some (st_mtime f))) s2)
    as (W3 & V3 & _). fold s3 in W3, V3.
  eexists. split; [|split; [|reflexivity]].
  - rewrite (end_headers_block s3) by congruence.
    rewrite W3, W2, W1, W0. reflexivity.
  - unfold s3. rewrite send_header_buffer by congruence.
    unfold s2. rewrite send_header_buffer by congruence.
    unfold s1. rewrite send_header_buffer by congruence.
    rewrite !elem_of_app, !list_elem_of_singleton. tauto.
Qed.

End ContentType.

(** C3. With the database of [mimetypes] as the run of the module leaves
    it (its three [add_type] calls on top of the host's tables, whatever
    those said about the extensions), a GET for a file of the
    served directory whose extension is [.ts] or [.tsx] is answered with
    the header [Content-type: application/javascript] (followed by the
    file's content), because [guess_type] finds the registered type.  The
    file is one that opens, under an absolute directory, and the request is
    neither HTTP/0.9 nor answered with 304 from [If-Modified-Since]: those
    two responses carry no content type at all. *)
Theorem C3_typescript_is_served_as_javascript
    (P : platform) (W : world) (self : handler) (f : file) :
  let db := the_db W (mem (run P W).2) in
  let fspath :=
    translate_path P (directory self) (served_target (path self)) in
  startswith fspath "/" = true →
  (splitext fspath).2 = ".ts" ∨ (splitext fspath).2 = ".tsx" →
  os_path_isdir P fspath = false →
  os_open P fspath = Some f →
  modified_since self f →
  request_version self ≠ "HTTP/0.9" →
  SimpleHTTPRequestHandler.guess_type db fspath = "application/javascript"
  ∧ ∃ lines,
      wfile (GameHandler.do_GET P db self)
      = wfile self ++ [Headers lines; Body (content f)]
      ∧ "Content-type: application/javascript" +:+ CRLF ∈ lines.
Proof.
  intros db fspath Habs Hext Hdir Hopen Hmod Hv.
  unfold db. rewrite run_registers. clear db.
  pose proof (registered_db_guess W fspath Habs Hext) as Hguess.
  split; [done|].
  assert (endswith_slash fspath = false) as Hslash.
  { destruct Hext as [Hext|Hext];
      by apply (ext_not_slash _ _ Hext). }
  destruct (send_file_head_200 P (registered_db W) fspath f
              (set_path (served_target (path self)) self)
              Hslash Hopen Hmod Hv) as (lines & Hw & Hin & Hf).
  exists lines. split.
  - rewrite do_GET_served_target.
    unfold SimpleHTTPRequestHandler.do_GET, SimpleHTTPRequestHandler.send_head.
    cbn [directory path set_path]. fold fspath. rewrite Hdir.
    destruct (SimpleHTTPRequestHandler.send_file_head P (registered_db W)
                GameHandler.end_headers fspath _) as [s o].
    cbn [fst snd] in Hw, Hf. subst o.
    unfold SimpleHTTPRequestHandler.copyfile.
    change (wfile (wfile_write (Body (content f)) s))
      with (wfile s ++ [Body (content f)]).
    rewrite Hw. cbn [wfile set_path]. by rewrite <- app_assoc.
  - by rewrite Hguess in Hin.
Qed.

Lemma C3_app_tsx_witness :
  let P := Example.host Example.files in
  let W := Example.script None None [] None in
  let self :=
    GameHandler.new "/srv/game" "/srv/game" (Example.get "/App.tsx") in
  SimpleHTTPRequestHandler.guess_type (the_db W (mem (run P W).2))
    "/srv/game/App.tsx"
  = "application/javascript"
  ∧ ∃ lines,
      wfile (GameHandler.do_GET P (the_db W (mem (run P W).2)) self)
      = wfile self ++ [Headers lines; Body (content Example.app_tsx)]
      ∧ "Content-type: application/javascript" +:+ CRLF ∈ lines.
Proof.
  apply (C3_typescript_is_served_as_javascript
           (Example.host Example.files) (Example.script None None [] None)
           (GameHandler.new "/srv/game" "/srv/game" (Example.get "/App.tsx"))
           Example.app_tsx).
  - vm_compute. reflexivity.
  - right. vm_compute. reflexivity.
  - vm_compute. reflexivity.
  - vm_compute. reflexivity.
  - vm_compute. exact I.
  - simpl. discriminate.
Defined.

(** ** C5, C6: how the run ends *)

Lemma serve_directory P db D cwd r :
  directory (GameHandler.serve P db D cwd r) = D.
Proof.
  unfold GameHandler.serve.
  destruct (responds_handle_one_request P db (GameHandler.new D cwd r))
    as (out & (_ & _ & _ & Hd) & _).
  exact Hd.
Qed.

Lemma events_run P W :
  __name__ W = "__main__" →
  events (run P W).2
  = (loading_trace W).*1 ++ startup_events W ++ serving_events P W.
Proof.
  intros Hn. rewrite (run_script P W Hn). unfold events. cbn [snd trace].
  rewrite fmap_app. f_equal.
  generalize (startup_events W ++ serving_events P W). intros l.
  induction l as [|ev l IH]; [done|]. cbn. by rewrite IH.
Qed.

Lemma not_serving_startup W ev :
  ev ∈ (loading_trace W).*1 ++ startup_events W → is_serving ev = false.
Proof.
  unfold loading_trace, startup_events, banner.
  cbn [fmap list_fmap map app fst].
  rewrite !elem_of_cons, elem_of_nil.
  intros H. repeat destruct H as [->|H]; done.
Qed.



(** C6. A [KeyboardInterrupt] out of the serve loop ends
    [serve_forever]: the server is closed, the shutdown message is
    printed, and [start_game_server] returns normally, so the process ends
    without an error.  Nothing is handled after the interrupt: the close
    and the message are the last events. *)
Theorem C6_interrupt_stops_the_server
    (P : platform) (W : world) :
  __name__ W = "__main__" →
  bind_raises W = None →
  serve_raises W = Some KeyboardInterrupt →
  (run P W).1 = Return ()
  ∧ ∃ before,
      events (run P W).2
      = before ++ EServeForever :: handled P W
          ++ [EServerClose; EPrint shutdown_line].
Proof.
  intros Hn Hb Hs. rewrite (events_run P W Hn), (run_script P W Hn).
  cbn [fst]. unfold script_result, serving_events. rewrite Hb, Hs.
  cbn [except_result except_events]. split; [done|].
  exists ((loading_trace W).*1 ++ startup_events W ++ map EPrint started_lines).
  repeat (progress (rewrite <- ?app_assoc; cbn [app])). reflexivity.
Qed.

Lemma C6_ctrl_c_witness :
  let P := Example.host Example.files in
  let W :=
    Example.script None None [Example.get "/"] (Some KeyboardInterrupt) in
  (run P W).1 = Return ()
  ∧ ∃ before,
      events (run P W).2
      = before ++ EServeForever :: handled P W
          ++ [EServerClose; EPrint shutdown_line].
Proof.
  apply (C6_interrupt_stops_the_server
           (Example.host Example.files)
           (Example.script None None [Example.get "/"]
              (Some KeyboardInterrupt)));
    reflexivity.
Defined.

(** ** C7: the served directory *)

Lemma serving_events_keep_root P W ev :
  ev ∈ serving_events P W →
  is_assign "DIRECTORY" ev = false ∧ is_chdir ev = false
  ∧ ∀ d, handler_directory ev = Some d → d = root W.
Proof.
  unfold serving_events, handled.
  assert (∀ e ev, ev ∈ except_events e →
            is_assign "DIRECTORY" ev = false ∧ is_chdir ev = false
            ∧ ∀ d, handler_directory ev = Some d → d = root W) as Hexc.
  { intros [| |reason] ev'; cbn [except_events];
      rewrite ?elem_of_cons, elem_of_nil; intros H;
      repeat destruct H as [->|H]; done. }
  destruct (bind_raises W) as [e|]; [apply Hexc|].
  rewrite elem_of_app, elem_of_cons, elem_of_app.
  intros [H|[->|[H|H]]].
  - unfold started_lines in H. cbn [map] in H.
    rewrite !elem_of_cons, elem_of_nil in H.
    repeat destruct H as [->|H]; done.
  - done.
  - apply list_elem_of_In, in_map_iff in H as (r & <- & _).
    repeat split; try done. cbn [handler_directory].
    intros d [= <-]. apply serve_directory.
  - destruct (serve_raises W) as [e|]; [|by apply elem_of_nil in H].
    apply elem_of_cons in H as [->|H]; [done|]. by apply (Hexc e).
Qed.

(** C7. In every run of the script the global [DIRECTORY] is assigned
    once, while the module is loaded, with
    [os.path.dirname(os.path.abspath(__file__))]; it has that value in the
    memory after every later event.  [start_game_server] begins with
    [os.chdir(DIRECTORY)], right after the loading of the module, and from
    then on the working directory is that directory after every event, no
    other [chdir] or assignment to [DIRECTORY] occurs, and every handler
    object is made with that directory to serve from. *)
Theorem C7_root_is_resolved_once_and_kept
    (P : platform) (W : world) :
  __name__ W = "__main__" →
  ∃ (m_port m_dir m_chdir : memory) (loading running : list (event * memory)),
    trace (run P W).2
    = (EAssign "PORT", m_port) :: (EAssign "DIRECTORY", m_dir) :: loading
        ++ (EChdir (root W), m_chdir) :: running
    ∧ DIRECTORY m_dir = os_path_dirname W (os_path_abspath W (__file__ W))
    ∧ Forall (λ x, is_loading x.1 = true
                   ∧ is_assign "DIRECTORY" x.1 = false
                   ∧ DIRECTORY x.2 = root W) loading
    ∧ DIRECTORY m_chdir = root W ∧ cwd m_chdir = root W
    ∧ Forall (λ x, DIRECTORY x.2 = root W ∧ cwd x.2 = root W
                   ∧ is_assign "DIRECTORY" x.1 = false
                   ∧ is_chdir x.1 = false
                   ∧ ∀ d, handler_directory x.1 = Some d → d = root W)
        running
    ∧ DIRECTORY (mem (run P W).2) = root W
    ∧ cwd (mem (run P W).2) = root W.
Proof.
  intros Hn. rewrite (run_script P W Hn). cbn [snd trace mem].
  unfold loading_trace, startup_events. cbn [map app].
  eexists _, _, _, [_; _; _; _], _. split; [reflexivity|].
  split; [reflexivity|]. split.
  { repeat constructor. }
  split; [reflexivity|]. split; [reflexivity|]. split; [|done].
  rewrite Forall_forall. intros [ev m] Hin.
  apply list_elem_of_In, in_map_iff in Hin as (ev' & [= <- <-] & Hin).
  cbn [fst snd]. split; [done|]. split; [done|].
  apply list_elem_of_In in Hin.
  apply elem_of_app in Hin as [Hin|Hin].
  - unfold banner in Hin. cbn [map app] in Hin.
    rewrite !elem_of_cons, elem_of_nil in Hin.
    repeat destruct Hin as [->|Hin]; done.
  - by apply (serving_events_keep_root P W).
Qed.

Lemma C7_root_witness :
  let P := Example.host Example.files in
  let W :=
    Example.script None None [Example.get "/"] (Some KeyboardInterrupt) in
  ∃ (m_port m_dir m_chdir : memory) (loading running : list (event * memory)),
    trace (run P W).2
    = (EAssign "PORT", m_port) :: (EAssign "DIRECTORY", m_dir) :: loading
        ++ (EChdir (root W), m_chdir) :: running
    ∧ DIRECTORY m_dir = os_path_dirname W (os_path_abspath W (__file__ W))
    ∧ Forall (λ x, is_loading x.1 = true
                   ∧ is_assign "DIRECTORY" x.1 = false
                   ∧ DIRECTORY x.2 = root W) loading
    ∧ DIRECTORY m_chdir = root W ∧ cwd m_chdir = root W
    ∧ Forall (λ x, DIRECTORY x.2 = root W ∧ cwd x.2 = root W
                   ∧ is_assign "DIRECTORY" x.1 = false
                   ∧ is_chdir x.1 = false
                   ∧ ∀ d, handler_directory x.1 = Some d → d = root W)
        running
    ∧ DIRECTORY (mem (run P W).2) = root W
    ∧ cwd (mem (run P W).2) = root W.
Proof.
  apply (C7_root_is_resolved_once_and_kept
           (Example.host Example.files)
           (Example.script None None [Example.get "/"]
              (Some KeyboardInterrupt))).
  reflexivity.
Defined.

(** ** C8: the order of the startup *)

Lemma root_url : "http://localhost:" +:+ pretty 8000 = "http://localhost:8000".
Proof. vm_compute. reflexivity. Qed.

(** C8. The events of a run of the script begin, in this order, with the
    loading of the module, which registers the three MIME types; then, in
    [start_game_server], the change of directory, the five lines of the
    banner, the call of [webbrowser.open] with the root URL of the port
    (passed as [http://localhost:8000]), and the construction of the
    server.  Nothing of the serve loop happens before; when the
    construction succeeds, the three lines that announce the server and
    the serve loop follow.  The outcome of [webbrowser.open] changes
    nothing: the run is the same whether it raises or not. *)
Theorem C8_startup_order
    (P : platform) (W : world) :
  __name__ W = "__main__" →
  (∃ rest,
     events (run P W).2
     = [ EAssign "PORT"; EAssign "DIRECTORY"; EMimetypesInit;
         EAddType "application/javascript" ".ts";
         EAddType "application/javascript" ".tsx";
         EAddType "application/json" ".json" ]
       ++ EChdir (root W) :: map EPrint (banner W)
       ++ [EWebbrowserOpen "http://localhost:8000"; EBind "" 8000]
       ++ rest
     ∧ (bind_raises W = None →
        ∃ rest',
          rest = map EPrint started_lines ++ EServeForever :: rest'))
  ∧ ∀ o, run P (with_webbrowser o W) = run P W.
Proof.
  intros Hn. split.
  - exists (serving_events P W). split.
    + rewrite (events_run P W Hn). unfold startup_events.
      rewrite root_url. cbn [loading_trace fmap list_fmap fst].
      repeat (progress (rewrite <- ?app_assoc; cbn [app])). reflexivity.
    + intros Hb. unfold serving_events. rewrite Hb. by eexists.
  - intros o. rewrite (run_script P W Hn).
    by rewrite (run_script P (with_webbrowser o W) Hn).
Qed.

Lemma C8_browser_failure_witness :
  let P := Example.host Example.files in
  let W :=
    Example.script (Some (Exception "no browser")) None []
      (Some KeyboardInterrupt)
  in
  (∃ rest,
     events (run P W).2
     = [ EAssign "PORT"; EAssign "DIRECTORY"; EMimetypesInit;
         EAddType "application/javascript" ".ts";
         EAddType "application/javascript" ".tsx";
         EAddType "application/json" ".json" ]
       ++ EChdir (root W) :: map EPrint (banner W)
       ++ [EWebbrowserOpen "http://localhost:8000"; EBind "" 8000]
       ++ rest
     ∧ (bind_raises W = None →
        ∃ rest',
          rest = map EPrint started_lines ++ EServeForever :: rest'))
  ∧ ∀ o, run P (with_webbrowser o W) = run P W.
Proof.
  apply (C8_startup_order
           (Example.host Example.files)
           (Example.script (Some (Exception "no browser")) None []
              (Some KeyboardInterrupt))).
  reflexivity.
Defined.

(** * Further properties of the code *)

(** ** [GameHandler.end_headers], exactly *)

Lemma send_header_plain k v self :
  lower k ≠ "connection" →
  BaseHTTPRequestHandler.send_header k v self
  = if bool_decide (request_version self ≠ "HTTP/0.9")
    then set_headers_buffer
           (_headers_buffer self ++ [k +:+ ": " +:+ v +:+ CRLF]) self
    else self.
Proof.
  intros Hk. unfold BaseHTTPRequestHandler.send_header.
  by rewrite (bool_decide_eq_false_2 _ Hk).
Qed.

Lemma fixed_keywords_plain :
  lower "Access-Control-Allow-Origin" ≠ "connection"
  ∧ lower "Cache-Control" ≠ "connection"
  ∧ lower "Pragma" ≠ "connection"
  ∧ lower "Expires" ≠ "connection".
Proof. repeat split; intros H; vm_compute in H; discriminate. Qed.

(** X1. For a request that is not HTTP/0.9, [end_headers] of [GameHandler]
    does one thing: it writes one header block, made of the lines queued so
    far, then the four fixed lines in the order of the source, then the
    blank line, and leaves the buffer empty.  The request line, the
    directory and the keep-alive flag of the handler are as before. *)
Theorem X1_end_headers_flushes_queued_then_fixed (self : handler) :
  request_version self ≠ "HTTP/0.9" →
  GameHandler.end_headers self
  = flushed
      [ "Access-Control-Allow-Origin: *" +:+ CRLF;
        "Cache-Control: no-store, no-cache, must-revalidate, max-age=0"
          +:+ CRLF;
        "Pragma: no-cache" +:+ CRLF;
        "Expires: 0" +:+ CRLF;
        CRLF ]
      self.
Proof.
  intros Hv. destruct fixed_keywords_plain as (K1 & K2 & K3 & K4).
  rewrite end_headers_unfold. unfold with_fixed_headers.
  rewrite (send_header_plain "Access-Control-Allow-Origin" _ _ K1).
  rewrite (bool_decide_eq_true_2 _ Hv).
  rewrite (send_header_plain "Cache-Control" _ _ K2).
  cbn [request_version set_headers_buffer].
  rewrite (bool_decide_eq_true_2 _ Hv).
  rewrite (send_header_plain "Pragma" _ _ K3).
  cbn [request_version set_headers_buffer].
  rewrite (bool_decide_eq_true_2 _ Hv).
  rewrite (send_header_plain "Expires" _ _ K4).
  cbn [request_version set_headers_buffer].
  rewrite (bool_decide_eq_true_2 _ Hv).
  unfold BaseHTTPRequestHandler.end_headers.
  cbn [request_version set_headers_buffer].
  rewrite (bool_decide_eq_true_2 _ Hv).
  unfold BaseHTTPRequestHandler.flush_headers, flushed, wfile_write,
    set_headers_buffer.
  cbn [directory command path request_version if_modified_since
       close_connection _headers_buffer wfile].
  do 3 f_equal. rewrite <- !app_assoc. reflexivity.
Qed.

Lemma X1_end_headers_witness :
  GameHandler.end_headers
    (GameHandler.new "/srv/game" "/srv/game" (Example.get "/"))
  = flushed
      [ "Access-Control-Allow-Origin: *" +:+ CRLF;
        "Cache-Control: no-store, no-cache, must-revalidate, max-age=0"
          +:+ CRLF;
        "Pragma: no-cache" +:+ CRLF;
        "Expires: 0" +:+ CRLF;
        CRLF ]
      (GameHandler.new "/srv/game" "/srv/game" (Example.get "/")).
Proof.
  apply (X1_end_headers_flushes_queued_then_fixed
           (GameHandler.new "/srv/game" "/srv/game" (Example.get "/"))).
  simpl. discriminate.
Defined.

(** X2. For an HTTP/0.9 request [end_headers] of [GameHandler] changes
    nothing at all: no header is queued and nothing is written, as such a
    response has no header section. *)
Theorem X2_end_headers_is_silent_for_http09 (self : handler) :
  request_version self = "HTTP/0.9" →
  GameHandler.end_headers self = self.
Proof.
  intros Hv. destruct fixed_keywords_plain as (K1 & K2 & K3 & K4).
  assert (bool_decide (request_version self ≠ "HTTP/0.9") = false) as Hb.
  { apply bool_decide_eq_false_2. intros H. by apply H. }
  rewrite end_headers_unfold. unfold with_fixed_headers.
  rewrite (send_header_plain "Access-Control-Allow-Origin" _ _ K1), Hb.
  rewrite (send_header_plain "Cache-Control" _ _ K2), Hb.
  rewrite (send_header_plain "Pragma" _ _ K3), Hb.
  rewrite (send_header_plain "Expires" _ _ K4), Hb.
  unfold BaseHTTPRequestHandler.end_headers. by rewrite Hb.
Qed.

Lemma X2_http09_witness :
  let self :=
    GameHandler.new "/srv/game" "/srv/game"
      {| req_command := "GET"; req_path := "/index.html";
         req_version := "HTTP/0.9"; req_if_modified_since := None |} in
  GameHandler.end_headers self = self.
Proof.
  apply (X2_end_headers_is_silent_for_http09
           (GameHandler.new "/srv/game" "/srv/game"
              {| req_command := "GET"; req_path := "/index.html";
                 req_version := "HTTP/0.9";
                 req_if_modified_since := None |})).
  reflexivity.
Defined.

(** ** Methods other than GET and HEAD *)

Section ErrorResponse.
Context (P : platform).

Lemma send_response_buffer code msg self :
  request_version self ≠ "HTTP/0.9" →
  ∃ lines,
    _headers_buffer
      (BaseHTTPRequestHandler.send_response P code (Some msg) self)
    = _headers_buffer self ++ status_line code msg :: lines.
Proof.
  intros Hv. unfold BaseHTTPRequestHandler.send_response.
  set (s0 := BaseHTTPRequestHandler.send_response_only P code _ self).
  assert (request_version s0 = request_version self
          ∧ _headers_buffer s0
            = _headers_buffer self ++ [status_line code msg]) as [V0 B0].
  { subst s0. unfold BaseHTTPRequestHandler.send_response_only.
    rewrite (bool_decide_eq_true_2 _ Hv).
    cbn [request_version _headers_buffer set_headers_buffer]. done. }
  set (s1 := BaseHTTPRequestHandler.send_header "Server" _ s0).
  destruct (send_header_frame "Server" (version_string P) s0)
    as (_ & V1 & _). fold s1 in V1.
  rewrite (send_header_buffer "Date" _ s1) by congruence.
  unfold s1. rewrite (send_header_buffer "Server" _ s0) by congruence.
  rewrite B0, <- !(assoc_L (++)). by eexists.
Qed.

(** What [send_error] with a message writes for a request that is not
    HTTP/0.9: one header block that opens with the status line, and at
    most a body after it. *)
Lemma send_error_output code msg self :
  request_version self ≠ "HTTP/0.9" →
  ∃ lines rest,
    wfile (GameHandler.send_error P code (Some msg) None self)
    = wfile self
        ++ Headers (_headers_buffer self ++ status_line code msg :: lines)
           :: rest
    ∧ (∀ o, o ∈ rest → ∃ page, o = Body page)
    ∧ ∀ l, l ∈ fixed_headers → l ∈ lines.
Proof.
  intros Hv.
  unfold GameHandler.send_error, BaseHTTPRequestHandler.send_error.
  destruct (match responses P code with
            | Some r => r | None => ("???", "???") end) as [shortmsg longmsg].
  cbn [default from_option id].
  set (body := error_page P code msg longmsg).
  set (has_body := (200 <=? code) && _).
  set (s0 := BaseHTTPRequestHandler.send_response P code _ self).
  set (s1 := BaseHTTPRequestHandler.send_header "Connection" "close" s0).
  destruct (send_response_buffer code msg self Hv) as [lines B0].
  fold s0 in B0.
  destruct (send_response_frame P code (Some msg) self) as (W0 & V0 & _).
  fold s0 in W0, V0.
  destruct (send_header_frame "Connection" "close" s0) as (W1 & V1 & _).
  fold s1 in W1, V1.
  assert (∃ s3 tail,
            (if has_body
             then BaseHTTPRequestHandler.send_header "Content-Length"
                    (pretty (Z.of_nat (String.length body)))
                    (BaseHTTPRequestHandler.send_header "Content-Type"
                       BaseHTTPRequestHandler.error_content_type s1)
             else s1) = s3
            ∧ wfile s3 = wfile self
            ∧ request_version s3 = request_version self
            ∧ _headers_buffer s3
              = _headers_buffer self ++ status_line code msg :: tail)
    as (s3 & tail & -> & W3 & V3 & B3).
  { destruct has_body.
    - set (s2 := BaseHTTPRequestHandler.send_header "Content-Type" _ s1).
      destruct (send_header_frame "Content-Type"
                  BaseHTTPRequestHandler.error_content_type s1)
        as (W2 & V2 & _). fold s2 in W2, V2.
      destruct (send_header_frame "Content-Length"
                  (pretty (Z.of_nat (String.length body))) s2)
        as (W3 & V3 & _).
      eexists _, _. split; [reflexivity|].
      split; [congruence|]. split; [congruence|].
      rewrite send_header_buffer by congruence.
      unfold s2. rewrite send_header_buffer by congruence.
      unfold s1. rewrite send_header_buffer by congruence.
      rewrite B0, <- !(assoc_L (++)). reflexivity.
    - eexists _, _. split; [reflexivity|].
      split; [congruence|]. split; [congruence|].
      unfold s1. rewrite send_header_buffer by congruence.
      rewrite B0, <- !(assoc_L (++)). reflexivity. }
  assert (wfile (GameHandler.end_headers s3)
          = wfile self
              ++ [Headers (_headers_buffer self ++ status_line code msg
                             :: (tail ++ fixed_headers ++ [CRLF]))])
    as Hblk.
  { rewrite (end_headers_block s3) by congruence.
    rewrite B3, W3. do 2 f_equal. by rewrite <- app_assoc. }
  exists (tail ++ fixed_headers ++ [CRLF]).
  destruct (bool_decide (command (GameHandler.end_headers s3) ≠ "HEAD")
            && has_body && negb (bool_decide (body = ""))).
  - exists [Body body].
    change (wfile (wfile_write (Body body) (GameHandler.end_headers s3)))
      with (wfile (GameHandler.end_headers s3) ++ [Body body]).
    rewrite Hblk. split; [by rewrite <- app_assoc|]. split.
    + intros o Ho. apply list_elem_of_singleton in Ho. by eexists.
    + intros l Hl. rewrite !elem_of_app. by right; left.
  - exists []. rewrite Hblk. split; [reflexivity|]. split.
    + intros o Ho. by apply elem_of_nil in Ho.
    + intros l Hl. rewrite !elem_of_app. by right; left.
Qed.

End ErrorResponse.

Lemma method_name_inj (c x : string) : "do_" +:+ c = "do_" +:+ x → c = x.
Proof.
  change ("do_" +:+ c) with (String "d" (String "o" (String "_" c))).
  change ("do_" +:+ x) with (String "d" (String "o" (String "_" x))).
  by intros [= ->].
Qed.

(** X3. [GameHandler] serves GET and HEAD only.  A request with any other
    method (POST, PUT, DELETE, OPTIONS, ...) is answered by
    [send_error(501, "Unsupported method (...)")] and by nothing else: for
    a request that is not HTTP/0.9 the response is one header block that
    opens with the 501 status line and carries the four fixed headers,
    followed at most by the error page. *)
Theorem X3_other_methods_get_501
    (P : platform) (db : mimetypes.MimeTypes) (self : handler) :
  command self ≠ "GET" →
  command self ≠ "HEAD" →
  GameHandler.handle_one_request P db self
  = GameHandler.send_error P 501
      (Some (unsupported_method P (command self))) None self
  ∧ (request_version self = "HTTP/0.9"
     ∨ ∃ lines rest,
         wfile (GameHandler.handle_one_request P db self)
         = wfile self
             ++ Headers (_headers_buffer self
                           ++ status_line 501
                                (unsupported_method P (command self))
                              :: lines)
                :: rest
         ∧ (∀ o, o ∈ rest → ∃ page, o = Body page)
         ∧ ∀ l, l ∈ fixed_headers → l ∈ lines).
Proof.
  intros Hget Hhead.
  assert (GameHandler.handle_one_request P db self
          = GameHandler.send_error P 501
              (Some (unsupported_method P (command self))) None self) as Heq.
  { unfold GameHandler.handle_one_request, GameHandler.getattr.
    rewrite (bool_decide_eq_false_2 ("do_" +:+ command self = "do_GET"))
      by (intros H; by apply (method_name_inj _ "GET") in H).
    rewrite (bool_decide_eq_false_2 ("do_" +:+ command self = "do_HEAD"))
      by (intros H; by apply (method_name_inj _ "HEAD") in H).
    reflexivity. }
  split; [done|].
  destruct (decide (request_version self = "HTTP/0.9")) as [Hv|Hv];
    [by left|right].
  rewrite Heq. by apply send_error_output.
Qed.

Lemma X3_post_witness :
  let P := Example.host Example.files in
  let self :=
    GameHandler.new "/srv/game" "/srv/game"
      {| req_command := "POST"; req_path := "/save";
         req_version := "HTTP/1.1"; req_if_modified_since := None |} in
  GameHandler.handle_one_request P Example.db self
  = GameHandler.send_error P 501
      (Some (unsupported_method P (command self))) None self
  ∧ (request_version self = "HTTP/0.9"
     ∨ ∃ lines rest,
         wfile (GameHandler.handle_one_request P Example.db self)
         = wfile self
             ++ Headers (_headers_buffer self
                           ++ status_line 501
                                (unsupported_method P (command self))
                              :: lines)
                :: rest
         ∧ (∀ o, o ∈ rest → ∃ page, o = Body page)
         ∧ ∀ l, l ∈ fixed_headers → l ∈ lines).
Proof.
  apply (X3_other_methods_get_501
           (Example.host Example.files) Example.db
           (GameHandler.new "/srv/game" "/srv/game"
              {| req_command := "POST"; req_path := "/save";
                 req_version := "HTTP/1.1";
                 req_if_modified_since := None |}));
    simpl; discriminate.
Defined.

(** ** Content types after the registrations *)

Lemma lower_ascii_slash c :
  Ascii.eqb (lower_ascii c) "/" = Ascii.eqb c "/".
Proof. destruct c as [[] [] [] [] [] [] [] []]; reflexivity. Qed.

Lemma lower_empty s : lower s = "" → s = "".
Proof. destruct s; [done|]. unfold lower; fold lower. discriminate. Qed.

Lemma lower_cons c s : lower (String c s) = String (lower_ascii c) (lower s).
Proof. reflexivity. Qed.

Lemma endswith_slash_lower s : endswith_slash (lower s) = endswith_slash s.
Proof.
  induction s as [|c s IH]; [done|].
  rewrite lower_cons. destruct s as [|c' s].
  - cbn. apply lower_ascii_slash.
  - rewrite lower_cons in *. exact IH.
Qed.

(** The extension is a key of neither table of encodings when its lower
    case is none of theirs. *)
Lemma not_an_encoding ext :
  lower ext ∉ [".gz"; ".z"; ".bz2"; ".xz"; ".br"] →
  mimetypes._encodings_map_default !! ext = None
  ∧ SimpleHTTPRequestHandler.extensions_map !! ext = None.
Proof.
  intros Hl. split.
  - destruct (mimetypes._encodings_map_default !! ext) as [t|] eqn:He;
      [|done]. exfalso. apply Hl.
    unfold mimetypes._encodings_map_default in He.
    repeat (apply lookup_insert_Some in He as [[<- _]|[_ He]];
            [vm_compute; repeat constructor|]).
    by rewrite lookup_empty in He.
  - destruct (SimpleHTTPRequestHandler.extensions_map !! ext) as [t|] eqn:He;
      [|done]. exfalso. apply Hl.
    unfold SimpleHTTPRequestHandler.extensions_map in He.
    repeat (apply lookup_insert_Some in He as [[<- _]|[_ He]];
            [vm_compute; repeat constructor|]).
    by rewrite lookup_empty in He.
Qed.

(** The guess for an extension registered by the module, in any letter
    case. *)
Lemma registered_db_guess_nocase (W : world) fspath key type :
  key ∈ [".ts"; ".tsx"; ".json"] →
  mimetypes.types_map (registered_db W) !! key = Some type →
  type ≠ "" →
  startswith fspath "/" = true →
  lower (splitext fspath).2 = key →
  SimpleHTTPRequestHandler.guess_type (registered_db W) fspath = type.
Proof.
  intros Hkey Htype Hne Habs Hext.
  assert (lower (splitext fspath).2 ∉ [".gz"; ".z"; ".bz2"; ".xz"; ".br"])
    as Hnot.
  { rewrite Hext. rewrite !elem_of_cons, elem_of_nil in Hkey.
    destruct Hkey as [->|[->|[->|[]]]];
      rewrite !elem_of_cons, elem_of_nil; intros H;
      repeat destruct H as [H|H]; done. }
  destruct (not_an_encoding _ Hnot) as [Henc Hmap].
  apply (guess_type_ext (registered_db W) (splitext fspath).2 type);
    try done; rewrite ?Hext; try done;
    rewrite !elem_of_cons, elem_of_nil in Hkey;
    destruct Hkey as [->|[->|[->|[]]]]; vm_compute; reflexivity.
Qed.

Section TypedResponse.
Context (P : platform) (db : mimetypes.MimeTypes).

(** The 200 response of a GET for a file, with the type [guess_type]
    gives. *)
Lemma do_GET_200 self (f : file) :
  endswith_slash
    (translate_path P (directory self) (served_target (path self))) = false →
  os_path_isdir P
    (translate_path P (directory self) (served_target (path self))) = false →
  os_open P
    (translate_path P (directory self) (served_target (path self)))
  = Some f →
  modified_since self f →
  request_version self ≠ "HTTP/0.9" →
  ∃ lines,
    wfile (GameHandler.do_GET P db self)
    = wfile self ++ [Headers lines; Body (content f)]
    ∧ "Content-type" +:+ ": "
        +:+ SimpleHTTPRequestHandler.guess_type db
              (translate_path P (directory self)
                 (served_target (path self)))
        +:+ CRLF ∈ lines.
Proof.
  set (fspath := translate_path P _ _).
  intros Hslash Hdir Hopen Hmod Hv.
  destruct (send_file_head_200 P db fspath f
              (set_path (served_target (path self)) self)
              Hslash Hopen Hmod Hv) as (lines & Hw & Hin & Hf).
  exists lines. split; [|done].
  rewrite do_GET_served_target.
  unfold SimpleHTTPRequestHandler.do_GET, SimpleHTTPRequestHandler.send_head.
  cbn [directory path set_path]. fold fspath. rewrite Hdir.
  destruct (SimpleHTTPRequestHandler.send_file_head P db
              GameHandler.end_headers fspath _) as [s o].
  cbn [fst snd] in Hw, Hf. subst o.
  unfold SimpleHTTPRequestHandler.copyfile.
  change (wfile (wfile_write (Body (content f)) s))
    with (wfile s ++ [Body (content f)]).
  rewrite Hw. cbn [wfile set_path]. by rewrite <- app_assoc.
Qed.

End TypedResponse.

Lemma lower_ext_not_slash fspath key :
  key ∈ [".ts"; ".tsx"; ".json"] →
  lower (splitext fspath).2 = key →
  endswith_slash fspath = false.
Proof.
  intros Hkey Hext.
  apply (ext_not_slash fspath (splitext fspath).2 eq_refl).
  - intros He. rewrite He in Hext. subst key.
    rewrite !elem_of_cons, elem_of_nil in Hkey.
    by destruct Hkey as [?|[?|[?|[]]]].
  - rewrite <- endswith_slash_lower, Hext.
    rewrite !elem_of_cons, elem_of_nil in Hkey.
    by destruct Hkey as [->|[->|[->|[]]]].
Qed.

(** X4. The third registration of the module makes a GET for a file whose
    extension is [.json] answer with [Content-type: application/json],
    whatever the host's tables said about that extension.  The conditions
    are those of a 200 response: the file opens, under an absolute
    directory, and the request is neither HTTP/0.9 nor answered with
    304. *)
Theorem X4_json_is_served_as_json
    (P : platform) (W : world) (self : handler) (f : file) :
  let db := the_db W (mem (run P W).2) in
  let fspath :=
    translate_path P (directory self) (served_target (path self)) in
  startswith fspath "/" = true →
  (splitext fspath).2 = ".json" →
  os_path_isdir P fspath = false →
  os_open P fspath = Some f →
  modified_since self f →
  request_version self ≠ "HTTP/0.9" →
  ∃ lines,
    wfile (GameHandler.do_GET P db self)
    = wfile self ++ [Headers lines; Body (content f)]
    ∧ "Content-type: application/json" +:+ CRLF ∈ lines.
Proof.
  intros db fspath Habs Hext Hdir Hopen Hmod Hv.
  unfold db. rewrite run_registers. clear db.
  destruct (registered_db_types W) as (_ & _ & Hjson).
  assert (lower (splitext fspath).2 = ".json") as Hlow by by rewrite Hext.
  assert (".json" ∈ [".ts"; ".tsx"; ".json"]) as Hkey
    by repeat constructor.
  pose proof (registered_db_guess_nocase W fspath ".json" "application/json"
                Hkey Hjson ltac:(done) Habs Hlow) as Hguess.
  destruct (do_GET_200 P (registered_db W) self f
              (lower_ext_not_slash _ _ Hkey Hlow) Hdir Hopen Hmod Hv)
    as (lines & Hw & Hin).
  exists lines. split; [done|]. fold fspath in Hin. by rewrite Hguess in Hin.
Qed.

(** X5. The extension is matched without regard to letter case: a GET for
    a file named [App.TSX] or [util.Ts] is answered with
    [Content-type: application/javascript] as well, under the same
    conditions of a 200 response. *)
Theorem X5_typescript_in_any_letter_case
    (P : platform) (W : world) (self : handler) (f : file) :
  let db := the_db W (mem (run P W).2) in
  let fspath :=
    translate_path P (directory self) (served_target (path self)) in
  startswith fspath "/" = true →
  lower (splitext fspath).2 = ".ts" ∨ lower (splitext fspath).2 = ".tsx" →
  os_path_isdir P fspath = false →
  os_open P fspath = Some f →
  modified_since self f →
  request_version self ≠ "HTTP/0.9" →
  ∃ lines,
    wfile (GameHandler.do_GET P db self)
    = wfile self ++ [Headers lines; Body (content f)]
    ∧ "Content-type: application/javascript" +:+ CRLF ∈ lines.
Proof.
  intros db fspath Habs Hext Hdir Hopen Hmod Hv.
  unfold db. rewrite run_registers. clear db.
  destruct (registered_db_types W) as (Hts & Htsx & _).
  assert (∃ key, key ∈ [".ts"; ".tsx"; ".json"]
                 ∧ lower (splitext fspath).2 = key
                 ∧ mimetypes.types_map (registered_db W) !! key
                   = Some "application/javascript")
    as (key & Hkey & Hlow & Htype).
  { destruct Hext as [Hext|Hext]; eexists; (split; [|split; [exact Hext|]]);
      try done; repeat constructor. }
  pose proof (registered_db_guess_nocase W fspath key
                "application/javascript" Hkey Htype ltac:(done) Habs Hlow)
    as Hguess.
  destruct (do_GET_200 P (registered_db W) self f
              (lower_ext_not_slash _ _ Hkey Hlow) Hdir Hopen Hmod Hv)
    as (lines & Hw & Hin).
  exists lines. split; [done|]. fold fspath in Hin. by rewrite Hguess in Hin.
Qed.

Lemma X4_words_json_witness :
  let P := Example.host Fixture.files in
  let W := Example.script None None [] None in
  let self :=
    GameHandler.new "/srv/game" "/srv/game" (Example.get "/words.json") in
  ∃ lines,
    wfile (GameHandler.do_GET P (the_db W (mem (run P W).2)) self)
    = wfile self ++ [Headers lines; Body (content Fixture.words_json)]
    ∧ "Content-type: application/json" +:+ CRLF ∈ lines.
Proof.
  apply (X4_json_is_served_as_json
           (Example.host Fixture.files) (Example.script None None [] None)
           (GameHandler.new "/srv/game" "/srv/game"
              (Example.get "/words.json"))
           Fixture.words_json).
  - vm_compute. reflexivity.
  - vm_compute. reflexivity.
  - vm_compute. reflexivity.
  - vm_compute. reflexivity.
  - vm_compute. exact I.
  - simpl. discriminate.
Defined.

Lemma X5_upper_case_witness :
  let P := Example.host Fixture.files in
  let W := Example.script None None [] None in
  let self :=
    GameHandler.new "/srv/game" "/srv/game" (Example.get "/Card.TSX") in
  ∃ lines,
    wfile (GameHandler.do_GET P (the_db W (mem (run P W).2)) self)
    = wfile self ++ [Headers lines; Body (content Fixture.card_tsx)]
    ∧ "Content-type: application/javascript" +:+ CRLF ∈ lines.
Proof.
  apply (X5_typescript_in_any_letter_case
           (Example.host Fixture.files) (Example.script None None [] None)
           (GameHandler.new "/srv/game" "/srv/game"
              (Example.get "/Card.TSX"))
           Fixture.card_tsx).
  - vm_compute. reflexivity.
  - right. vm_compute. reflexivity.
  - vm_compute. reflexivity.
  - vm_compute. reflexivity.
  - vm_compute. exact I.
  - simpl. discriminate.
Defined.

(** *** What the registrations leave alone *)

Lemma registered_lookup (W : world) key :
  mimetypes.types_map (registered_db W) !! key
  = if bool_decide (key = ".json") then Some "application/json"
    else if bool_decide (key = ".tsx") then Some "application/javascript"
    else if bool_decide (key = ".ts") then Some "application/javascript"
    else platform_types W !! key.
Proof.
  unfold registered_db, mimetypes.add_type. cbn [mimetypes.types_map].
  case_bool_decide as H1; [subst; apply lookup_insert_eq|].
  rewrite lookup_insert_ne by done.
  case_bool_decide as H2; [subst; apply lookup_insert_eq|].
  rewrite lookup_insert_ne by done.
  case_bool_decide as H3; [subst; apply lookup_insert_eq|].
  by rewrite lookup_insert_ne.
Qed.

Lemma mimetypes_guess_registered (W : world) url :
  mimetypes.guess_type (registered_db W) url
  = mimetypes.guess_type (host_db W) url
  ∨ mimetypes.guess_type (registered_db W) url
    = Some "application/javascript"
  ∨ mimetypes.guess_type (registered_db W) url = Some "application/json".
Proof.
  unfold mimetypes.guess_type, mimetypes.guess_type_fuel.
  destruct (splittype url) as [scheme rest].
  case_bool_decide; [by left|].
  destruct (splitext rest) as [base ext].
  change (mimetypes.suffix_loop (registered_db W) base ext 2)
    with (mimetypes.suffix_loop (host_db W) base ext 2).
  destruct (mimetypes.suffix_loop (host_db W) base ext 2) as [[b e]|];
    [|by left].
  change (mimetypes.encodings_map (registered_db W))
    with (mimetypes.encodings_map (host_db W)).
  set (key := lower _). rewrite registered_lookup.
  repeat case_bool_decide; auto.
Qed.

(** X6. The three registrations change the type served for a file name in
    one way only: what [guess_type] answers afterwards is what it answers
    on the host's own tables, unless it is [application/javascript] or
    [application/json].  No other extension is given another type, and
    the tables of suffixes and encodings are as before. *)
Theorem X6_registrations_touch_three_extensions_only
    (P : platform) (W : world) (fspath : string) :
  let db := the_db W (mem (run P W).2) in
  (SimpleHTTPRequestHandler.guess_type db fspath
   = SimpleHTTPRequestHandler.guess_type (host_db W) fspath
   ∨ SimpleHTTPRequestHandler.guess_type db fspath = "application/javascript"
   ∨ SimpleHTTPRequestHandler.guess_type db fspath = "application/json")
  ∧ (∀ key, key ∉ [".ts"; ".tsx"; ".json"] →
       mimetypes.types_map db !! key = platform_types W !! key)
  ∧ mimetypes.suffix_map db = mimetypes.suffix_map (host_db W)
  ∧ mimetypes.encodings_map db = mimetypes.encodings_map (host_db W)
  ∧ mimetypes.common_types db = mimetypes.common_types (host_db W).
Proof.
  intros db. unfold db. rewrite run_registers. clear db.
  split; [|split; [|done]].
  - unfold SimpleHTTPRequestHandler.guess_type.
    destruct (SimpleHTTPRequestHandler.extensions_map !! _); [by left|].
    destruct (SimpleHTTPRequestHandler.extensions_map !! _); [by left|].
    destruct (mimetypes_guess_registered W fspath) as [-> | [-> | ->]];
      [by left| |].
    + right. left. reflexivity.
    + right. right. reflexivity.
  - intros key Hkey. rewrite registered_lookup.
    rewrite !elem_of_cons, elem_of_nil in Hkey.
    repeat case_bool_decide; subst; tauto.
Qed.

(** ** The module imported, and how a run ends *)

Lemma run_imported (P : platform) (W : world) :
  __name__ W ≠ "__main__" →
  run P W
  = (Return (),
     {| mem := loading_memory W (root W) (Some (registered_db W));
        trace := loading_trace W |}).
Proof.
  intros Hn. unfold run.
  match goal with
  | |- ?l = _ =>
      let l' :=
        eval cbv [main boot mbind M_bind mret M_ret modify emit
                  mimetypes_init mimetypes_add_type mem trace PORT
                  DIRECTORY _db cwd the_db] in l in
      change l with l'
  end.
  rewrite (bool_decide_eq_false_2 _ Hn). reflexivity.
Qed.

(** X7. When the module is imported instead of run (its [__name__] is not
    [__main__]), loading it binds the two globals and registers the three
    MIME types, and that is all: [start_game_server] is not called, so the
    working directory stays where it was, nothing is printed, no browser is
    opened and no port is bound. *)
Theorem X7_import_does_not_start_the_server (P : platform) (W : world) :
  __name__ W ≠ "__main__" →
  (run P W).1 = Return ()
  ∧ events (run P W).2
    = [ EAssign "PORT"; EAssign "DIRECTORY"; EMimetypesInit;
        EAddType "application/javascript" ".ts";
        EAddType "application/javascript" ".tsx";
        EAddType "application/json" ".json" ]
  ∧ cwd (mem (run P W).2) = os_getcwd W
  ∧ PORT (mem (run P W).2) = 8000
  ∧ DIRECTORY (mem (run P W).2)
    = os_path_dirname W (os_path_abspath W (__file__ W)).
Proof. intros Hn. by rewrite (run_imported P W Hn). Qed.

Lemma X7_import_witness :
  let P := Example.host Example.files in
  let W := Fixture.imported in
  (run P W).1 = Return ()
  ∧ events (run P W).2
    = [ EAssign "PORT"; EAssign "DIRECTORY"; EMimetypesInit;
        EAddType "application/javascript" ".ts";
        EAddType "application/javascript" ".tsx";
        EAddType "application/json" ".json" ]
  ∧ cwd (mem (run P W).2) = os_getcwd W
  ∧ PORT (mem (run P W).2) = 8000
  ∧ DIRECTORY (mem (run P W).2)
    = os_path_dirname W (os_path_abspath W (__file__ W)).
Proof.
  apply (X7_import_does_not_start_the_server
           (Example.host Example.files) Fixture.imported).
  simpl. discriminate.
Defined.

(** X8. However the script runs, it never ends with an uncaught
    [KeyboardInterrupt] or [Exception]: of the exceptions that the browser,
    the server's constructor or the serve loop raise, only [SystemExit]
    leaves [start_game_server].  The run goes on for ever exactly when
    the server was constructed and the serve loop is never left, and it
    ends with [SystemExit] exactly when the constructor or the serve loop
    raised it; in every other case it ends normally. *)
Theorem X8_how_a_run_ends (P : platform) (W : world) :
  __name__ W = "__main__" →
  (∀ e, (run P W).1 = Raise e → e = SystemExit)
  ∧ ((run P W).1 = Diverge
     ↔ bind_raises W = None ∧ serve_raises W = None)
  ∧ ((run P W).1 = Raise SystemExit
     ↔ bind_raises W = Some SystemExit
       ∨ (bind_raises W = None ∧ serve_raises W = Some SystemExit)).
Proof.
  intros Hn. rewrite (run_script P W Hn). cbn [fst].
  unfold script_result.
  destruct (bind_raises W) as [[| |r1]|];
    [..|destruct (serve_raises W) as [[| |r2]|]];
    cbn [except_result]; (split; [|split; split]);
    try done; try (intros e [= <-]; done);
    try (intros [? ?]; done); try (intros [?|[? ?]]; done);
    try (intros; by left); try (intros; by right).
Qed.

Lemma X8_run_ends_witness :
  let P := Example.host Example.files in
  let W := Example.script None None [] (Some SystemExit) in
  (∀ e, (run P W).1 = Raise e → e = SystemExit)
  ∧ ((run P W).1 = Diverge
     ↔ bind_raises W = None ∧ serve_raises W = None)
  ∧ ((run P W).1 = Raise SystemExit
     ↔ bind_raises W = Some SystemExit
       ∨ (bind_raises W = None ∧ serve_raises W = Some SystemExit)).
Proof.
  apply (X8_how_a_run_ends
           (Example.host Example.files)
           (Example.script None None [] (Some SystemExit))).
  reflexivity.
Defined.

(** X9. A [KeyboardInterrupt] that arrives while the server is being
    constructed is caught by the same clause as one in the serve loop: the
    shutdown message is printed right after the failed construction and
    the function returns normally, although no server was ever started
    (nothing was served, and there is no server to close). *)
Theorem X9_interrupt_during_construction (P : platform) (W : world) :
  __name__ W = "__main__" →
  bind_raises W = Some KeyboardInterrupt →
  (run P W).1 = Return ()
  ∧ (∃ before,
       events (run P W).2
       = before ++ [EBind "" 8000; EPrint shutdown_line])
  ∧ ∀ ev, ev ∈ events (run P W).2 →
      is_serving ev = false ∧ ev ≠ EServerClose.
Proof.
  intros Hn Hb. rewrite (events_run P W Hn), (run_script P W Hn).
  cbn [fst]. unfold script_result, serving_events. rewrite Hb.
  cbn [except_result except_events]. split; [done|]. split.
  - exists ((loading_trace W).*1 ++ EChdir (root W) :: map EPrint (banner W)
              ++ [EWebbrowserOpen ("http://localhost:" +:+ pretty 8000)]).
    unfold startup_events.
    repeat (progress (rewrite <- ?app_assoc; cbn [app])). reflexivity.
  - intros ev Hev. rewrite app_assoc in Hev.
    apply elem_of_app in Hev as [Hev|Hev].
    + split; [by apply (not_serving_startup W)|].
      intros ->. revert Hev. unfold loading_trace, startup_events, banner.
      cbn [fmap list_fmap map app fst].
      rewrite !elem_of_cons, elem_of_nil.
      intros H. by repeat destruct H as [H|H].
    + apply list_elem_of_singleton in Hev as ->. done.
Qed.

Lemma X9_early_interrupt_witness :
  let P := Example.host Example.files in
  let W := Example.script None (Some KeyboardInterrupt) [] None in
  (run P W).1 = Return ()
  ∧ (∃ before,
       events (run P W).2
       = before ++ [EBind "" 8000; EPrint shutdown_line])
  ∧ ∀ ev, ev ∈ events (run P W).2 →
      is_serving ev = false ∧ ev ≠ EServerClose.
Proof.
  apply (X9_interrupt_during_construction
           (Example.host Example.files)
           (Example.script None (Some KeyboardInterrupt) [] None));
    reflexivity.
Defined.

(** ** The server object and the messages of a run *)

Lemma elem_of_map {A B} (f : A → B) (l : list A) (y : B) :
  y ∈ map f l ↔ ∃ x, y = f x ∧ x ∈ l.
Proof.
  rewrite list_elem_of_In, List.in_map_iff. split.
  - intros (x & <- & H). exists x. by rewrite list_elem_of_In.
  - intros (x & -> & H). exists x. by rewrite <- list_elem_of_In.
Qed.

Lemma handled_is_serving P W ev :
  ev ∈ handled P W → ∃ r self, ev = EHandle r self.
Proof.
  unfold handled. intros (r & -> & _)%elem_of_map. by eexists _, _.
Qed.

Lemma except_events_print e ev :
  ev ∈ except_events e → ∃ line, ev = EPrint line.
Proof.
  destruct e as [| |reason]; cbn [except_events];
    rewrite ?elem_of_cons, elem_of_nil; intros H;
    repeat destruct H as [->|H]; try done; by eexists.
Qed.

Lemma started_print ev :
  ev ∈ map EPrint started_lines → ∃ line, ev = EPrint line.
Proof.
  intros (l & -> & _)%elem_of_map. by eexists.
Qed.

Lemma startup_not_close W ev :
  ev ∈ (loading_trace W).*1 ++ startup_events W → ev ≠ EServerClose.
Proof.
  unfold loading_trace, startup_events, banner.
  cbn [fmap list_fmap map app fst].
  rewrite !elem_of_cons, elem_of_nil.
  intros H. repeat destruct H as [->|H]; done.
Qed.

Lemma split_at_unique {A} (x : A) (pre post before after : list A) :
  x ∉ pre → x ∉ post →
  pre ++ x :: post = before ++ x :: after →
  before = pre ∧ after = post.
Proof.
  revert before. induction pre as [|a pre IH]; intros before Hpre Hpost Heq.
  - destruct before as [|b before]; cbn [app] in Heq.
    + by injection Heq as <-.
    + injection Heq as <- ->. exfalso. apply Hpost.
      apply elem_of_app. right. by left.
  - destruct before as [|b before]; cbn [app] in Heq.
    + injection Heq as -> _. exfalso. apply Hpre. by left.
    + injection Heq as <- Heq.
      destruct (IH before) as [-> ->]; [|done..|done].
      intros Hin. apply Hpre. by right.
Qed.

(** X10. The [with] block closes the server exactly when the server was
    constructed and the serve loop was left by an exception, whichever
    it is (also a [SystemExit], which no clause catches).  The server is
    closed once, after the last request was handled, and before the
    message of the [except] clause: whatever follows the close is a
    printed line. *)
Theorem X10_server_is_closed_when_the_loop_is_left
    (P : platform) (W : world) :
  __name__ W = "__main__" →
  (EServerClose ∈ events (run P W).2
   ↔ bind_raises W = None ∧ is_Some (serve_raises W))
  ∧ ∀ before after,
      events (run P W).2 = before ++ (EServerClose :: after) →
      (EServerClose ∉ before)
      ∧ (∃ rest, before = rest ++ EServeForever :: handled P W)
      ∧ ∀ ev, ev ∈ after → ∃ line, ev = EPrint line.
Proof.
  intros Hn. rewrite (events_run P W Hn). rewrite app_assoc.
  pose proof (startup_not_close W) as Hstart.
  set (start := (loading_trace W).*1 ++ startup_events W) in *.
  unfold serving_events.
  destruct (bind_raises W) as [e|].
  { assert (EServerClose ∉ start ++ except_events e) as Hno.
    { intros [H|H]%elem_of_app; [by apply (Hstart _ H)|].
      by apply except_events_print in H as [line H]. }
    split.
    - split; [done|]. by intros [? _].
    - intros before after Heq. exfalso. apply Hno. rewrite Heq.
      apply elem_of_app. right. by left. }
  destruct (serve_raises W) as [e|].
  - assert (EServerClose ∉ start ++ map EPrint started_lines
                            ++ EServeForever :: handled P W) as Hpre.
    { intros [H|H]%elem_of_app; [by apply (Hstart _ H)|].
      apply elem_of_app in H as [H|H].
      - by apply started_print in H as [line H].
      - apply elem_of_cons in H as [H|H]; [done|].
        by apply handled_is_serving in H as (r & self & H). }
    assert (EServerClose ∉ except_events e) as Hpost.
    { intros H. by apply except_events_print in H as [line H]. }
    split.
    + split; [done|]. intros _.
      rewrite !elem_of_app, elem_of_cons, elem_of_app, elem_of_cons.
      right. right. right. right. by left.
    + intros before after Heq.
      destruct (split_at_unique EServerClose
                  (start ++ map EPrint started_lines
                     ++ EServeForever :: handled P W)
                  (except_events e) before after Hpre Hpost) as [-> ->].
      { rewrite <- Heq.
        repeat (progress (rewrite <- ?app_assoc; cbn [app])). reflexivity. }
      split; [done|]. split.
      * exists (start ++ map EPrint started_lines).
        by rewrite <- app_assoc.
      * intros ev. apply except_events_print.
  - assert (EServerClose ∉ start ++ map EPrint started_lines
                            ++ EServeForever :: handled P W ++ []) as Hno.
    { rewrite app_nil_r.
      intros [H|H]%elem_of_app; [by apply (Hstart _ H)|].
      apply elem_of_app in H as [H|H].
      - by apply started_print in H as [line H].
      - apply elem_of_cons in H as [H|H]; [done|].
        by apply handled_is_serving in H as (r & self & H). }
    split.
    + split; [done|]. by intros [_ [? ?]].
    + intros before after Heq. exfalso. apply Hno. rewrite Heq.
      apply elem_of_app. right. by left.
Qed.

Lemma X10_server_closed_witness :
  let P := Example.host Example.files in
  let W := Example.script None None [Example.get "/"] (Some SystemExit) in
  (EServerClose ∈ events (run P W).2
   ↔ bind_raises W = None ∧ is_Some (serve_raises W))
  ∧ ∀ before after,
      events (run P W).2 = before ++ (EServerClose :: after) →
      (EServerClose ∉ before)
      ∧ (∃ rest, before = rest ++ EServeForever :: handled P W)
      ∧ ∀ ev, ev ∈ after → ∃ line, ev = EPrint line.
Proof.
  apply (X10_server_is_closed_when_the_loop_is_left
           (Example.host Example.files)
           (Example.script None None [Example.get "/"] (Some SystemExit))).
  reflexivity.
Defined.

(** The lines a run prints. *)
Lemma printed_in_run P W line :
  __name__ W = "__main__" →
  EPrint line ∈ events (run P W).2
  ↔ line ∈ banner W
    ∨ match bind_raises W with
      | Some e => EPrint line ∈ except_events e
      | None =>
          line ∈ started_lines
          ∨ match serve_raises W with
            | Some e => EPrint line ∈ except_events e
            | None => False
            end
      end.
Proof.
  intros Hn. rewrite (events_run P W Hn).
  assert (∀ l, EPrint line ∈ map EPrint l ↔ line ∈ l) as Hmap.
  { intros l. rewrite elem_of_map. split.
    - by intros (l' & [= <-] & H).
    - intros H. by exists line. }
  assert (EPrint line ∉ handled P W) as Hh.
  { intros H. by apply handled_is_serving in H as (r & self & H). }
  unfold loading_trace, startup_events, serving_events.
  cbn [fmap list_fmap fst].
  rewrite !elem_of_app, !elem_of_cons, elem_of_app, Hmap.
  rewrite !elem_of_cons, elem_of_nil.
  destruct (bind_raises W) as [e|].
  - intuition discriminate.
  - rewrite !elem_of_app, elem_of_cons, elem_of_app, Hmap.
    destruct (serve_raises W) as [e|].
    + rewrite elem_of_cons. intuition discriminate.
    + rewrite elem_of_nil. intuition discriminate.
Qed.

Ltac differ :=
  match goal with
  | H : _ = _ |- _ => vm_compute in H; discriminate H
  end.

(** X11. The messages of a run tell how it went.  The three lines that
    announce the server are printed exactly when the server was
    constructed, so never when the port is taken; the shutdown message
    exactly when a [KeyboardInterrupt] was caught, and the hint about a
    port in use exactly when an [Exception] was caught, be it raised by
    the constructor or, later, by the serve loop. *)
Theorem X11_messages_tell_the_outcome (P : platform) (W : world) :
  __name__ W = "__main__" →
  (∀ line, line ∈ started_lines →
     (EPrint line ∈ events (run P W).2 ↔ bind_raises W = None))
  ∧ (EPrint shutdown_line ∈ events (run P W).2
     ↔ bind_raises W = Some KeyboardInterrupt
       ∨ (bind_raises W = None ∧ serve_raises W = Some KeyboardInterrupt))
  ∧ (EPrint hint_line ∈ events (run P W).2
     ↔ ∃ reason,
         bind_raises W = Some (Exception reason)
         ∨ (bind_raises W = None
            ∧ serve_raises W = Some (Exception reason))).
Proof.
  intros Hn. split; [|split].
  - intros line Hline. rewrite (printed_in_run P W line Hn).
    unfold started_lines, banner in *.
    rewrite !elem_of_cons, elem_of_nil in Hline.
    rewrite !elem_of_cons, elem_of_nil.
    destruct (bind_raises W) as [[| |reason]|]; cbn [except_events];
      rewrite ?elem_of_cons, ?elem_of_nil.
    all: split; [|try done; intros _; right; left; done].
    all: destruct Hline as [->|[->|[->|[]]]];
      intros H; repeat destruct H as [H|H]; try done;
      try injection H as H; differ.
  - rewrite (printed_in_run P W shutdown_line Hn).
    unfold started_lines, banner.
    rewrite !elem_of_cons, elem_of_nil.
    destruct (bind_raises W) as [[| |r1]|];
      [..|destruct (serve_raises W) as [[| |r2]|]];
      cbn [except_events]; rewrite ?elem_of_cons, ?elem_of_nil.
    all: split;
      [ intros H; repeat destruct H as [H|H]; try done;
        try (by left); try (by right);
        try injection H as H; differ
      | intros [H|[H1 H2]]; try done;
        first [by right; left | by right; right; left] ].
  - rewrite (printed_in_run P W hint_line Hn).
    unfold started_lines, banner.
    rewrite !elem_of_cons, elem_of_nil.
    destruct (bind_raises W) as [[| |r1]|];
      [..|destruct (serve_raises W) as [[| |r2]|]];
      cbn [except_events]; rewrite ?elem_of_cons, ?elem_of_nil.
    all: split;
      [ intros H; repeat destruct H as [H|H]; try done;
        try (by eexists; left); try (by eexists; right);
        try injection H as H; differ
      | intros [reason [H|[H1 H2]]]; try done;
        first [by right; right; left | by right; right; right; left] ].
Qed.

Lemma X11_messages_witness :
  let P := Example.host Example.files in
  let W :=
    Example.script None None [Example.get "/"]
      (Some (Exception "[Errno 24] Too many open files")) in
  (∀ line, line ∈ started_lines →
     (EPrint line ∈ events (run P W).2 ↔ bind_raises W = None))
  ∧ (EPrint shutdown_line ∈ events (run P W).2
     ↔ bind_raises W = Some KeyboardInterrupt
       ∨ (bind_raises W = None ∧ serve_raises W = Some KeyboardInterrupt))
  ∧ (EPrint hint_line ∈ events (run P W).2
     ↔ ∃ reason,
         bind_raises W = Some (Exception reason)
         ∨ (bind_raises W = None
            ∧ serve_raises W = Some (Exception reason))).
Proof.
  apply (X11_messages_tell_the_outcome
           (Example.host Example.files)
           (Example.script None None [Example.get "/"]
              (Some (Exception "[Errno 24] Too many open files")))).
  reflexivity.
Defined.

(** ** [start_game_server] called with other globals *)

(** X12. [start_game_server] reads the globals [PORT] and [DIRECTORY]
    when it is called, not when the module is loaded: called in any
    state of the module (by a program that imported it and set the
    globals, say), it changes to the directory of that moment, prints
    that directory and the address with that port, opens the browser on
    that port and binds it, and every handler made afterwards serves from
    that directory.  It leaves the two globals and the MIME database as
    they were; of the memory only the working directory changes. *)
Theorem X12_start_game_server_reads_the_globals
    (P : platform) (W : world) (s : process) :
  (∃ l1 l2 l5 rest,
     events (start_game_server P W s).2
     = events s
         ++ EChdir (DIRECTORY (mem s))
         :: EPrint l1 :: EPrint l2
         :: EPrint ("🏠 运行目录: " +:+ DIRECTORY (mem s))
         :: EPrint ("🌐 访问地址: http://localhost:"
                      +:+ pretty (PORT (mem s)))
         :: EPrint l5
         :: EWebbrowserOpen ("http://localhost:" +:+ pretty (PORT (mem s)))
         :: EBind "" (PORT (mem s))
         :: rest
     ∧ ∀ ev d, ev ∈ rest → handler_directory ev = Some d →
         d = DIRECTORY (mem s))
  ∧ cwd (mem (start_game_server P W s).2) = DIRECTORY (mem s)
  ∧ PORT (mem (start_game_server P W s).2) = PORT (mem s)
  ∧ DIRECTORY (mem (start_game_server P W s).2) = DIRECTORY (mem s)
  ∧ _db (mem (start_game_server P W s).2) = _db (mem s).
Proof.
  assert (∀ (m : memory) l ev d,
            ev ∈ (map (λ r, (EHandle r (GameHandler.serve P (the_db W m)
                                          (DIRECTORY (mem s))
                                          (DIRECTORY (mem s)) r), m)) l).*1 →
            handler_directory ev = Some d → d = DIRECTORY (mem s)) as Hh.
  { intros m l ev d ([ev' m'] & -> & (r & [= -> ->] & _)%elem_of_map)
      %list_elem_of_fmap.
    cbn [fst handler_directory]. intros [= <-]. apply serve_directory. }
  match goal with
  | |- context [start_game_server ?p ?w ?b] =>
      let l' :=
        eval cbv [start_game_server mbind M_bind mret M_ret
                  modify emit gets try_except with_ThreadedHTTPServer
                  ThreadedHTTPServer try_finally os_chdir print
                  webbrowser_open raise mem trace PORT DIRECTORY _db cwd]
          in (start_game_server p w b) in
      change (start_game_server p w b) with l'
  end.
  destruct s as [m tr]. cbn [mem trace] in *.
  destruct (webbrowser_raises W) as [eb|];
    (destruct (bind_raises W) as [[| |reason]|]);
    rewrite ?serve_forever_run; cbn [mem trace PORT DIRECTORY _db cwd];
    try (destruct (serve_raises W) as [[| |reason]|]);
    unfold events; cbn [snd trace mem PORT DIRECTORY _db cwd];
    (split; [|done]);
    repeat (progress (rewrite ?fmap_app, <- ?app_assoc;
                      cbn [fmap list_fmap fst app]));
    eexists _, _, _, _; (split; [reflexivity|]);
    intros ev d Hev Hd;
    rewrite ?elem_of_cons, ?elem_of_app, ?elem_of_cons, ?elem_of_nil in Hev;
    repeat match type of Hev with
           | _ ∨ _ => destruct Hev as [Hev|Hev]
           end;
    try (subst ev; discriminate Hd); try done;
    by apply (Hh _ _ _ _ Hev Hd).
Qed.

(** ** HEAD and GET of the same target *)

Lemma header_blocks_app out1 out2 :
  header_blocks (out1 ++ out2) = header_blocks out1 ++ header_blocks out2.
Proof.
  induction out1 as [|[lines|b] out1 IH]; cbn [app header_blocks];
    by rewrite ?IH.
Qed.

Lemma header_blocks_headers blocks :
  header_blocks (map Headers blocks) = blocks.
Proof.
  induction blocks as [|b blocks IH]; cbn [map header_blocks];
    by rewrite ?IH.
Qed.

Lemma header_blocks_bodies bodies :
  header_blocks (map Body bodies) = [].
Proof. by induction bodies as [|b bodies IH]. Qed.

Section HeadAndGet.
Context (P : platform) (db : mimetypes.MimeTypes).

Import BaseHTTPRequestHandler.

(** The header primitives do not look at [self.command]. *)
Lemma send_header_command k v c self :
  send_header k v (set_command c self) = set_command c (send_header k v self).
Proof.
  unfold send_header. cbn [request_version set_command].
  by repeat destruct (bool_decide _).
Qed.

Lemma send_response_command code msg c self :
  send_response P code msg (set_command c self)
  = set_command c (send_response P code msg self).
Proof.
  unfold send_response. rewrite <- !send_header_command. do 2 f_equal.
  unfold send_response_only. cbn [request_version set_command].
  by destruct (bool_decide _).
Qed.

Lemma base_end_headers_command c self :
  end_headers (set_command c self) = set_command c (end_headers self).
Proof.
  unfold end_headers. cbn [request_version set_command].
  by destruct (bool_decide _).
Qed.

Lemma end_headers_command c self :
  GameHandler.end_headers (set_command c self)
  = set_command c (GameHandler.end_headers self).
Proof.
  unfold GameHandler.end_headers.
  by rewrite !send_header_command, base_end_headers_command.
Qed.

(** What [end_headers] writes is header blocks. *)
Lemma end_headers_blocks self :
  ∃ blocks,
    wfile (GameHandler.end_headers self) = wfile self ++ map Headers blocks.
Proof.
  destruct (decide (request_version self = "HTTP/0.9")) as [Hv|Hv].
  - exists []. rewrite end_headers_unfold. unfold end_headers.
    destruct (with_fixed_headers_frame self) as (W & V & _).
    rewrite bool_decide_eq_false_2 by (rewrite V; auto).
    by rewrite W, app_nil_r.
  - eexists [_]. by rewrite end_headers_block.
Qed.

(** [send_error] for HEAD is [send_error] for any method, stopped before
    the page. *)
Lemma send_error_head code message explain self :
  ∃ pre blocks bodies,
    send_error P GameHandler.end_headers code message explain
      (set_command "HEAD" self)
    = set_command "HEAD" pre
    ∧ wfile pre = wfile self ++ map Headers blocks
    ∧ wfile (send_error P GameHandler.end_headers code message explain self)
      = wfile pre ++ map Body bodies.
Proof.
  unfold send_error. destruct (responses P code) as [[short long]|].
  all: set (body := error_page P code _ _).
  all: set (s1 := send_header "Connection" "close" _).
  all: destruct ((200 <=? code)
                 && negb (bool_decide (code ∈ [204; 205; 304]))).
  all: rewrite ?send_response_command, ?send_header_command,
         ?end_headers_command; subst s1.
  all: rewrite ?send_response_command, ?send_header_command,
         ?end_headers_command.
  all: cbn [command set_command].
  all: rewrite (bool_decide_eq_false_2 ("HEAD" ≠ "HEAD")) by auto.
  all: cbn [andb].
  all: match goal with
       | |- context [set_command "HEAD" (GameHandler.end_headers ?x)] =>
           exists (GameHandler.end_headers x);
           destruct (end_headers_blocks x) as [blocks Hb];
           exists blocks
       end.
  all: match goal with
       | |- context [if ?b then _ else _] => destruct b
       | _ => idtac
       end.
  all: first [ exists [body]; split; [reflexivity|]; split; [|reflexivity]
             | exists []; split; [reflexivity|]; split;
               [|by rewrite app_nil_r] ].
  all: rewrite Hb; f_equal.
  all: repeat match goal with
         | |- context [wfile (send_header ?k ?v ?x)] =>
             rewrite (proj1 (send_header_frame k v x))
         | |- context [wfile (send_response P ?c ?m ?x)] =>
             rewrite (proj1 (send_response_frame P c m x))
         end.
  all: reflexivity.
Qed.

Lemma set_command_wfile c self : wfile (set_command c self) = wfile self.
Proof. reflexivity. Qed.

Lemma set_command_path c self : path (set_command c self) = path self.
Proof. reflexivity. Qed.

Ltac quiet_wfile :=
  repeat match goal with
    | |- context [wfile (send_header ?k ?v ?x)] =>
        rewrite (proj1 (send_header_frame k v x))
    | |- context [wfile (send_response P ?c ?m ?x)] =>
        rewrite (proj1 (send_response_frame P c m x))
    end.

Ltac push_command :=
  rewrite ?send_response_command, ?send_header_command,
    ?end_headers_command.

(** A branch of [send_head] that ends with [end_headers]. *)
Ltac headers_branch :=
  push_command; rewrite ?set_command_path; push_command;
  cbn [fst snd]; rewrite ?set_command_wfile;
  match goal with
  | |- context [wfile (GameHandler.end_headers ?x)] =>
      destruct (end_headers_blocks x) as [blocks Hb];
      exists blocks, []; rewrite Hb; quiet_wfile;
      by rewrite ?app_nil_r
  end.

(** A branch of [send_head] that ends with [send_error]. *)
Ltac error_branch :=
  cbn [fst snd];
  match goal with
  | |- context [send_error P GameHandler.end_headers ?c ?m ?e
                  (set_command "HEAD" ?x)] =>
      destruct (send_error_head c m e x)
        as (pre & blocks & bodies & -> & Hpre & ->);
      exists blocks, bodies; rewrite ?set_command_wfile, Hpre;
      by rewrite <- ?app_assoc
  end.

Lemma send_file_head_head fspath self :
  ∃ blocks bodies,
    wfile (SimpleHTTPRequestHandler.send_file_head P db
             GameHandler.end_headers fspath self).1
    = wfile self ++ map Headers blocks ++ map Body bodies
    ∧ wfile (SimpleHTTPRequestHandler.send_file_head P db
               GameHandler.end_headers fspath (set_command "HEAD" self)).1
      = wfile self ++ map Headers blocks
    ∧ (SimpleHTTPRequestHandler.send_file_head P db
         GameHandler.end_headers fspath (set_command "HEAD" self)).2
      = (SimpleHTTPRequestHandler.send_file_head P db
           GameHandler.end_headers fspath self).2.
Proof.
  unfold SimpleHTTPRequestHandler.send_file_head.
  change (if_modified_since (set_command "HEAD" self))
    with (if_modified_since self).
  destruct (endswith_slash fspath); [error_branch|].
  destruct (os_open P fspath) as [f|]; [|error_branch].
  destruct (match if_modified_since self with
            | Some ims => st_mtime f <=? ims
            | None => false
            end); headers_branch.
Qed.

Lemma list_directory_head fspath self :
  ∃ blocks bodies,
    wfile (SimpleHTTPRequestHandler.list_directory P
             GameHandler.end_headers fspath self).1
    = wfile self ++ map Headers blocks ++ map Body bodies
    ∧ wfile (SimpleHTTPRequestHandler.list_directory P
               GameHandler.end_headers fspath (set_command "HEAD" self)).1
      = wfile self ++ map Headers blocks
    ∧ (SimpleHTTPRequestHandler.list_directory P
         GameHandler.end_headers fspath (set_command "HEAD" self)).2
      = (SimpleHTTPRequestHandler.list_directory P
           GameHandler.end_headers fspath self).2.
Proof.
  unfold SimpleHTTPRequestHandler.list_directory.
  change (path (set_command "HEAD" self)) with (path self).
  destruct (os_listdir P fspath) as [list|]; [headers_branch|error_branch].
Qed.

Lemma send_head_head self :
  ∃ blocks bodies,
    wfile (SimpleHTTPRequestHandler.send_head P db GameHandler.end_headers
             self).1
    = wfile self ++ map Headers blocks ++ map Body bodies
    ∧ wfile (SimpleHTTPRequestHandler.send_head P db GameHandler.end_headers
               (set_command "HEAD" self)).1
      = wfile self ++ map Headers blocks
    ∧ (SimpleHTTPRequestHandler.send_head P db GameHandler.end_headers
         (set_command "HEAD" self)).2
      = (SimpleHTTPRequestHandler.send_head P db GameHandler.end_headers
           self).2.
Proof.
  unfold SimpleHTTPRequestHandler.send_head.
  change (directory (set_command "HEAD" self)) with (directory self).
  change (path (set_command "HEAD" self)) with (path self).
  set (fspath := translate_path P (directory self) (path self)).
  destruct (os_path_isdir P fspath); [|apply send_file_head_head].
  destruct (negb (endswith_slash (urlsplit_path P (path self)))).
  { headers_branch. }
  destruct (os_path_isfile P (os_path_join fspath "index.html"));
    [apply send_file_head_head|].
  destruct (os_path_isfile P (os_path_join fspath "index.htm"));
    [apply send_file_head_head|].
  apply list_directory_head.
Qed.

End HeadAndGet.

(** X13. For every target but [/], the answer to a HEAD request is the
    answer to the GET of the same target without the content: the very
    same header blocks (status line, the library's headers and the four
    fixed ones), and nothing after them, neither the file nor the page of
    an error.  (For [/] the two can differ, since only GET is
    rewritten.) *)
Theorem X13_head_is_get_without_the_content
    (P : platform) (db : mimetypes.MimeTypes) (D cwd : string)
    (r : request) :
  req_command r = "GET" →
  req_path r ≠ "/" →
  wfile (GameHandler.serve P db D cwd (with_method "HEAD" r))
  = map Headers
      (header_blocks (wfile (GameHandler.serve P db D cwd r))).
Proof.
  intros Hc Hp. unfold GameHandler.serve, GameHandler.handle_one_request.
  cbn [command GameHandler.new with_method req_command].
  rewrite Hc. unfold GameHandler.getattr.
  rewrite (bool_decide_eq_true_2 ("do_" +:+ "GET" = "do_GET")) by done.
  rewrite (bool_decide_eq_false_2 ("do_" +:+ "HEAD" = "do_GET")) by done.
  rewrite (bool_decide_eq_true_2 ("do_" +:+ "HEAD" = "do_HEAD")) by done.
  unfold GameHandler.do_GET, GameHandler.do_HEAD.
  rewrite (bool_decide_eq_false_2 (path (GameHandler.new D cwd r) = "/"))
    by done.
  unfold SimpleHTTPRequestHandler.do_GET, SimpleHTTPRequestHandler.do_HEAD.
  change (GameHandler.new D cwd (with_method "HEAD" r))
    with (set_command "HEAD" (GameHandler.new D cwd (with_method "GET" r))).
  replace (with_method "GET" r) with r by (destruct r; cbn in *; by subst).
  destruct (send_head_head P db (GameHandler.new D cwd r))
    as (blocks & bodies & Hget & -> & _).
  destruct (SimpleHTTPRequestHandler.send_head P db GameHandler.end_headers
              (GameHandler.new D cwd r)) as [self [f|]];
    cbn [fst] in Hget.
  - change (wfile (SimpleHTTPRequestHandler.copyfile f self))
      with (wfile self ++ [Body (content f)]).
    rewrite Hget. cbn [wfile GameHandler.new app].
    rewrite !header_blocks_app, header_blocks_headers, header_blocks_bodies.
    cbn [header_blocks]. by rewrite !app_nil_r.
  - rewrite Hget. cbn [wfile GameHandler.new app].
    rewrite !header_blocks_app, header_blocks_headers, header_blocks_bodies.
    by rewrite !app_nil_r.
Qed.

Lemma X13_head_of_app_tsx_witness :
  let P := Example.host Example.files in
  let r := Example.get "/App.tsx" in
  wfile (GameHandler.serve P Example.db "/srv/game" "/srv/game"
           (with_method "HEAD" r))
  = map Headers
      (header_blocks
         (wfile (GameHandler.serve P Example.db "/srv/game" "/srv/game" r))).
Proof.
  apply (X13_head_is_get_without_the_content
           (Example.host Example.files) Example.db "/srv/game" "/srv/game"
           (Example.get "/App.tsx")).
  - reflexivity.
  - simpl. discriminate.
Defined.
